(** * Multi-tenant Prometheus MCP server: tenant registry, authentication,
      request executor and operation handlers.

    A shallow embedding of [src/prometheus_mcp_server/server.py].  Python
    exceptions are values of [Exception]; code that talks to the network is
    written in a state-and-error monad over an abstract backend, whose
    state also records every HTTP request that was issued.  Calls to the
    structured logger do not influence control flow and are left out. *)

From Stdlib Require Import Ascii.
From stdpp Require Import base strings list gmap.

(** ** Strings *)

Module Str.

(** [contains msg s]: the text [s] occurs somewhere inside [msg]. *)
Definition contains (msg s : string) : Prop :=
  ∃ pre post, msg = pre +:+ s +:+ post.

(** Python's [s.rstrip('/')]: every trailing slash is removed. *)
Fixpoint drop_slashes (s : string) : string :=
  match s with
  | String "/"%char s' => drop_slashes s'
  | _ => s
  end.

Definition rstrip_slash (s : string) : string :=
  String.rev (drop_slashes (String.rev s)).

(** [', '.join(l)] *)
Fixpoint join (sep : string) (l : list string) : string :=
  match l with
  | [] => ""
  | [x] => x
  | x :: l' => x +:+ sep +:+ join sep l'
  end.

(** Strings hold UTF-8 bytes; Python's [len] counts code points, that is
    the bytes that do not continue a character ([10xxxxxx]). *)
Definition is_continuation_byte (c : ascii) : bool :=
  match c with
  | Ascii _ _ _ _ _ _ b6 b7 => b7 && negb b6
  end.

Fixpoint code_points (s : string) : nat :=
  match s with
  | EmptyString => 0
  | String c s' =>
      if is_continuation_byte c then code_points s' else S (code_points s')
  end.

End Str.

(** ** Python values

    The fragment of Python values that [json] decoding produces and that the
    handlers return: [None], booleans, integers, floats (kept as their
    literal), strings, lists, and dictionaries in insertion order. *)

#[local] Set Warnings "-register-all".

Inductive Value : Type :=
  | VNone
  | VBool (b : bool)
  | VInt (n : Z)
  | VFloat (literal : string)
  | VStr (s : string)
  | VList (items : list Value)
  | VDict (fields : list (string * Value)).

(** The exceptions that the server raises or lets through. *)
Inductive Exception : Type :=
  | ValueError (msg : string)
  | KeyError (key : string)
  | TypeError (msg : string)
  | AttributeError (msg : string)
  | RequestException (msg : string)
  | JSONDecodeError (msg : string).

(** Truthiness of an [Optional[str]]: [None] and the empty string are
    both false. *)
Definition truthy (o : option string) : bool :=
  match o with
  | Some s => negb (String.eqb s "")
  | None => false
  end.

(** [a or b] on optional strings. *)
Definition py_or (a b : option string) : option string :=
  if truthy a then a else b.

(** How an f-string renders an optional string. *)
Definition fmt_opt (o : option string) : string :=
  match o with
  | Some s => s
  | None => "None"
  end.

Definition opt_value (o : option string) : Value :=
  match o with
  | Some s => VStr s
  | None => VNone
  end.

(** [v == s] for a string literal [s]. *)
Definition is_str (v : Value) (s : string) : bool :=
  match v with
  | VStr x => String.eqb x s
  | _ => false
  end.

(** ** Configuration *)

Inductive TransportType := STDIO | HTTP | SSE.

Record MCPServerConfig := {
  mcp_server_transport : TransportType;
  mcp_bind_host : option string;
  mcp_bind_port : Z;
}.

Record PrometheusTenant := {
  name : string;
  url : string;
  username : option string;
  password : option string;
  token : option string;
  org_id : option string;
}.

(** [PrometheusTenant.__post_init__] *)
Definition PrometheusTenant_post_init (self : PrometheusTenant)
    : Exception + PrometheusTenant :=
  if String.eqb (name self) "" then
    inl (ValueError "Tenant name is required")
  else if String.eqb (url self) "" then
    inl (ValueError ("URL is required for tenant '" +:+ name self +:+ "'"))
  else inr self.

Record PrometheusConfig := {
  tenants : list PrometheusTenant;
  default_tenant : option string;
  mcp_server_config : MCPServerConfig;
}.

(** The loop of [PrometheusConfig.get_tenant]: the first record whose name
    equals the requested one. *)
Fixpoint find_tenant (ts : list PrometheusTenant) (n : string)
    : option PrometheusTenant :=
  match ts with
  | [] => None
  | tenant :: rest =>
      if String.eqb (name tenant) n then Some tenant else find_tenant rest n
  end.

(** [PrometheusConfig.get_tenant].  The argument may be [None] (when the
    default tenant is unset), which equals no tenant name. *)
Definition get_tenant (self : PrometheusConfig) (n : option string)
    : option PrometheusTenant :=
  match n with
  | Some s => find_tenant (tenants self) s
  | None => None
  end.

(** [PrometheusConfig.list_tenant_names] *)
Definition list_tenant_names (self : PrometheusConfig) : list string :=
  map name (tenants self).

(** [PrometheusConfig.__post_init__]: validation, and the default tenant
    filled in from the first record when it is not given. *)
Definition PrometheusConfig_post_init (self : PrometheusConfig)
    : Exception + PrometheusConfig :=
  match tenants self with
  | [] => inl (ValueError "At least one tenant must be configured")
  | first :: _ =>
      let self' :=
        if negb (truthy (default_tenant self)) then
          {| tenants := tenants self;
             default_tenant := Some (name first);
             mcp_server_config := mcp_server_config self |}
        else self in
      if truthy (default_tenant self')
         && negb (bool_decide (is_Some (get_tenant self' (default_tenant self'))))
      then
        inl (ValueError ("Default tenant '" +:+ fmt_opt (default_tenant self')
                         +:+ "' not found in tenant list"))
      else inr self'
  end.

(** The dataclass constructor [PrometheusConfig(tenants=..., default_tenant=...,
    mcp_server_config=...)]. *)
Definition PrometheusConfig_init (ts : list PrometheusTenant)
    (default_name : option string) (mcp : MCPServerConfig)
    : Exception + PrometheusConfig :=
  PrometheusConfig_post_init
    {| tenants := ts; default_tenant := default_name;
       mcp_server_config := mcp |}.

(** ** Authentication *)

Inductive Auth : Type :=
  | AuthHeaders (headers : list (string * string))
  | HTTPBasicAuth (user pass : string)
  | NoAuth.

(** [get_prometheus_auth] *)
Definition get_prometheus_auth (tenant : PrometheusTenant) : Auth :=
  if truthy (token tenant) then
    AuthHeaders [("Authorization", "Bearer " +:+ fmt_opt (token tenant))]
  else if truthy (username tenant) && truthy (password tenant) then
    HTTPBasicAuth (fmt_opt (username tenant)) (fmt_opt (password tenant))
  else NoAuth.

(** ** Dictionaries in insertion order *)

Section Dict.
Context {A : Type}.

(** [d.get(key)] *)
Fixpoint dict_get (key : string) (d : list (string * A)) : option A :=
  match d with
  | [] => None
  | (k, v) :: rest => if String.eqb k key then Some v else dict_get key rest
  end.

(** [d[key] = v]: an existing key keeps its position. *)
Fixpoint dict_set (key : string) (v : A) (d : list (string * A))
    : list (string * A) :=
  match d with
  | [] => [(key, v)]
  | (k, x) :: rest =>
      if String.eqb k key then (k, v) :: rest
      else (k, x) :: dict_set key v rest
  end.

(** [d.update(other)] *)
Definition dict_update (d other : list (string * A)) : list (string * A) :=
  fold_left (λ acc kv, dict_set kv.1 kv.2 acc) other d.
End Dict.

(** ** Requests and the backend *)

(** One call [requests.get(url, params=..., auth=..., headers=...)]. *)
Record Request := {
  req_url : string;
  req_params : option (list (string * string));
  req_auth : Auth;
  req_headers : list (string * string);
}.

(** What [requests.get], [raise_for_status] and [response.json()] together
    come to, as far as the [except] clauses of [make_prometheus_request] tell
    them apart.  [RaisesRequestException]: one of the three raised a
    [requests.exceptions.RequestException], that is a transport failure, a
    status that is not 2xx or, with requests 2.27 and later, a body that is
    not JSON (the decoder error of requests is a [RequestException]).
    [RaisesJSONDecodeError]: [response.json()] raised a
    [json.JSONDecodeError] that is not a [RequestException], as older
    versions of requests do.  [Body]: the decoded body.  Exceptions of other
    classes are not modelled. *)
Inductive HttpOutcome : Type :=
  | RaisesRequestException (msg : string)
  | RaisesJSONDecodeError (msg : string)
  | Body (result : Value).

(** The dictionaries returned by [execute_query_all_tenants]. *)
Record FanOut := {
  fo_query : string;
  fo_time : option string;
  results : gmap string Value;
  errors : gmap string Value;
  successful_tenants : nat;
  failed_tenants : nat;
  total_tenants : nat;
}.

(** ** Sample data used by the examples *)

Module Sample.

Definition mcp : MCPServerConfig :=
  {| mcp_server_transport := STDIO;
     mcp_bind_host := Some "127.0.0.1";
     mcp_bind_port := 8000 |}.

Definition tenant (n u : string) (user pass tok : option string)
    : PrometheusTenant :=
  {| name := n; url := u; username := user; password := pass;
     token := tok; org_id := None |}.

Definition prod : PrometheusTenant :=
  tenant "prod" "http://prod:9090/" None None (Some "s3cr3t").
Definition staging : PrometheusTenant :=
  tenant "staging" "http://staging:9090" (Some "alice") (Some "pw") None.
(** A second record that reuses the name of [prod]. *)
Definition prod_twin : PrometheusTenant :=
  tenant "prod" "http://other:9090" None None None.
(** A user name without a password. *)
Definition half : PrometheusTenant :=
  tenant "half" "http://half:9090" (Some "alice") None None.
(** A token next to a user name and a password. *)
Definition both : PrometheusTenant :=
  tenant "both" "http://both:9090" (Some "alice") (Some "pw") (Some "tok").
Definition default : PrometheusTenant :=
  tenant "default" "http://localhost:9090" None None None.

Definition config_of (ts : list PrometheusTenant) (d : option string)
    : PrometheusConfig :=
  {| tenants := ts; default_tenant := d; mcp_server_config := mcp |}.

Definition vector : Value :=
  VDict [("resultType", VStr "vector"); ("result", VList [])].
Definition success_envelope : Value :=
  VDict [("status", VStr "success"); ("data", vector)].
Definition error_envelope : Value :=
  VDict [("status", VStr "error"); ("error", VStr "bad query")].

(** A backend that answers every request with the same envelope. *)
Definition constant_backend (envelope : Value)
    : Request → unit → HttpOutcome * unit :=
  λ _ w, (Body envelope, w).

(** A backend that fails for one URL and succeeds for the others. *)
Definition failing_for (bad_url : string)
    : Request → unit → HttpOutcome * unit :=
  λ req w,
    if String.eqb (req_url req) bad_url
    then (Body error_envelope, w)
    else (Body success_envelope, w).

Definition quote (s : string) : string := "'" +:+ s +:+ "'".
Definition opaque_text (v : Value) : string := "<value>".
Definition opaque_type_error (op : string) (v : Value) : string :=
  "unsupported operand for " +:+ op.

(** A backend that cannot be reached. *)
Definition unreachable : Request → unit → HttpOutcome * unit :=
  λ _ w, (RaisesRequestException "Connection refused", w).

(** A backend that answers every request with an error envelope: the
    first one with the error ["first"], the later ones with ["second"]. *)
Definition failing_in_turn : Request → nat → HttpOutcome * nat :=
  λ _ calls,
    (Body (VDict [("status", VStr "error");
                  ("error", VStr (if Nat.eqb calls 0 then "first"
                                  else "second"))]),
     S calls).

Definition metrics_envelope : Value :=
  VDict [("status", VStr "success");
         ("data", VList [VStr "up"; VStr "go_goroutines"])].

Definition targets_envelope : Value :=
  VDict [("status", VStr "success");
         ("data", VDict [("activeTargets", VList [VDict [("health", VStr "up")]]);
                         ("droppedTargets", VList [])])].

End Sample.

Declare Scope py_scope.
Delimit Scope py_scope with py.

Section Server.
Context {World : Type}.

(** The backend: the answer to a request, and the world after it. *)
Variable http_get : Request → World → HttpOutcome * World.
(** Python's [repr] of a string, [str] of a value that is not a string,
    and the interpreter's text of a type error. *)
Variable repr_str : string → string.
Variable str_value : Value → string.
Variable type_error_text : string → Value → string.
(** The module-level [config]. *)
Variable config : PrometheusConfig.

Record State := {
  world : World;
  issued : list Request;
}.

(** Computations that may raise and that change the world. *)
Definition M (A : Type) : Type := State → (Exception + A) * State.

Definition ret {A} (x : A) : M A := λ s, (inr x, s).
Definition raise {A} (e : Exception) : M A := λ s, (inl e, s).
Definition bind {A B} (m : M A) (k : A → M B) : M B :=
  λ s, match m s with
       | (inr x, s') => k x s'
       | (inl e, s') => (inl e, s')
       end.
Definition lift {A} (r : Exception + A) : M A := λ s, (r, s).
(** [try: m  except Exception as e: handler(e)] *)
Definition try_except {A} (m : M A) (handler : Exception → M A) : M A :=
  λ s, match m s with
       | (inr x, s') => (inr x, s')
       | (inl e, s') => handler e s'
       end.

Notation "'do' x <- c1 ;; c2" := (bind c1 (λ x, c2))
  (at level 10, x name, c1 at level 99, c2 at level 200) : py_scope.
Local Open Scope py_scope.

(** [str(e)] *)
Definition str (e : Exception) : string :=
  match e with
  | ValueError msg | TypeError msg | AttributeError msg
  | RequestException msg | JSONDecodeError msg => msg
  | KeyError key => repr_str key
  end.

(** An f-string field holding a decoded value. *)
Definition fmt_value (v : Value) : string :=
  match v with
  | VStr s => s
  | _ => str_value v
  end.

(** An f-string field holding a list of strings. *)
Definition fmt_names (l : list string) : string :=
  "[" +:+ Str.join ", " (map repr_str l) +:+ "]".

(** [v[key]] *)
Definition py_getitem (v : Value) (key : string) : Exception + Value :=
  match v with
  | VDict fields =>
      match dict_get key fields with
      | Some x => inr x
      | None => inl (KeyError key)
      end
  | _ => inl (TypeError (type_error_text "getitem" v))
  end.

(** [v.get(key, default)] *)
Definition py_get (v : Value) (key : string) (fallback : Value)
    : Exception + Value :=
  match v with
  | VDict fields => inr (default fallback (dict_get key fields))
  | _ => inl (AttributeError (type_error_text "get" v))
  end.

(** [len(v)] *)
Definition py_len (v : Value) : Exception + Value :=
  match v with
  | VList items => inr (VInt (Z.of_nat (length items)))
  | VDict fields => inr (VInt (Z.of_nat (length fields)))
  | VStr s => inr (VInt (Z.of_nat (Str.code_points s)))
  | _ => inl (TypeError (type_error_text "len" v))
  end.

(** [requests.get(...)], [response.raise_for_status()], [response.json()] *)
Definition requests_get (req : Request) : M HttpOutcome :=
  λ s, let '(out, w) := http_get req (world s) in
       (inr out, {| world := w; issued := issued s ++ [req] |}).

(** [make_prometheus_request], lines 176-178: the default tenant stands
    in for a tenant name that is [None]. *)
Definition substitute_default (tenant_name : option string) : option string :=
  match tenant_name with
  | None => default_tenant config
  | Some _ => tenant_name
  end.

(** [make_prometheus_request], lines 176-183: the tenant lookup. *)
Definition resolve_tenant (tenant_name : option string)
    : Exception + PrometheusTenant :=
  let tenant_name := substitute_default tenant_name in
  match get_tenant config tenant_name with
  | None =>
      inl (ValueError ("Tenant '" +:+ fmt_opt tenant_name
                       +:+ "' not found. Available tenants: "
                       +:+ fmt_names (list_tenant_names config)))
  | Some tenant => inr tenant
  end.

(** [make_prometheus_request], lines 185-195: the request sent for a
    tenant.  A bearer token travels in the headers and clears [auth]. *)
Definition build_request (endpoint : string)
    (params : option (list (string * string)))
    (tenant : PrometheusTenant) : Request :=
  let url := Str.rstrip_slash (url tenant) +:+ "/api/v1/" +:+ endpoint in
  let auth := get_prometheus_auth tenant in
  let headers := [] in
  let '(headers, auth) :=
    match auth with
    | AuthHeaders h => (dict_update headers h, NoAuth)
    | _ => (headers, auth)
    end in
  let headers :=
    if truthy (org_id tenant)
    then dict_set "X-Scope-OrgID" (fmt_opt (org_id tenant)) headers
    else headers in
  {| req_url := url; req_params := params;
     req_auth := auth; req_headers := headers |}.

(** [make_prometheus_request], lines 197-237: the [try] block and its
    [except] clauses. *)
Definition send_request (endpoint : string)
    (params : option (list (string * string)))
    (tenant_name : option string) (tenant : PrometheusTenant) : M Value :=
  try_except
    (do response <- requests_get (build_request endpoint params tenant) ;;
     match response with
     | RaisesRequestException msg => raise (RequestException msg)
     | RaisesJSONDecodeError msg => raise (JSONDecodeError msg)
     | Body result =>
         do status <- lift (py_getitem result "status") ;;
         if negb (is_str status "success") then
           do error_msg <- lift (py_get result "error" (VStr "Unknown error")) ;;
           raise (ValueError ("Prometheus API error for tenant '"
                              +:+ fmt_opt tenant_name +:+ "': "
                              +:+ fmt_value error_msg))
         else
           lift (py_getitem result "data")
     end)
    (λ e, match e with
          | RequestException _ => raise e
          | JSONDecodeError msg =>
              raise (ValueError ("Invalid JSON response from Prometheus tenant '"
                                 +:+ fmt_opt tenant_name +:+ "': " +:+ msg))
          | _ => raise e
          end).

(** [make_prometheus_request] *)
Definition make_prometheus_request (endpoint : string)
    (params : option (list (string * string)))
    (tenant_name : option string) : M Value :=
  do tenant <- lift (resolve_tenant tenant_name) ;;
  send_request endpoint params (substitute_default tenant_name) tenant.

(** ** Operation handlers *)

(** The loop body of [list_tenants]. *)
Definition tenant_info (tenant : PrometheusTenant) : Value :=
  VDict [("name", VStr (name tenant));
         ("url", VStr (url tenant));
         ("has_auth", VBool (truthy (py_or (username tenant) (token tenant))));
         ("org_id", opt_value (org_id tenant))].

(** [list_tenants] *)
Definition list_tenants : M Value :=
  let tenant_info := map tenant_info (tenants config) in
  ret (VDict [("tenants", VList tenant_info);
              ("default_tenant", opt_value (default_tenant config));
              ("total_count", VInt (Z.of_nat (length (tenants config))))]).

(** [params = {"query": query}], then [params["time"] = time] if [time]
    is given. *)
Definition query_params (query : string) (time : option string)
    : list (string * string) :=
  let params := [("query", query)] in
  if truthy time then dict_set "time" (fmt_opt time) params else params.

(** [execute_query] *)
Definition execute_query (query : string) (time tenant : option string)
    : M Value :=
  let params := query_params query time in
  let tenant_name := py_or tenant (default_tenant config) in
  do data <- make_prometheus_request "query" (Some params) tenant_name ;;
  do result_type <- lift (py_getitem data "resultType") ;;
  do result <- lift (py_getitem data "result") ;;
  ret (VDict [("resultType", result_type);
              ("result", result);
              ("tenant", opt_value tenant_name)]).

(** [execute_range_query] *)
Definition execute_range_query (query start end_ step : string)
    (tenant : option string) : M Value :=
  let params := [("query", query); ("start", start);
                 ("end", end_); ("step", step)] in
  let tenant_name := py_or tenant (default_tenant config) in
  do data <- make_prometheus_request "query_range" (Some params) tenant_name ;;
  do result_type <- lift (py_getitem data "resultType") ;;
  do result <- lift (py_getitem data "result") ;;
  ret (VDict [("resultType", result_type);
              ("result", result);
              ("tenant", opt_value tenant_name)]).

(** [list_metrics] *)
Definition list_metrics (tenant : option string) : M Value :=
  let tenant_name := py_or tenant (default_tenant config) in
  do data <- make_prometheus_request "label/__name__/values" None tenant_name ;;
  do count <- lift (py_len data) ;;
  ret (VDict [("metrics", data);
              ("tenant", opt_value tenant_name);
              ("count", count)]).

(** [get_metric_metadata] *)
Definition get_metric_metadata (metric : string) (tenant : option string)
    : M Value :=
  let tenant_name := py_or tenant (default_tenant config) in
  let params := [("metric", metric)] in
  do data <- make_prometheus_request "metadata" (Some params) tenant_name ;;
  do metadata <- lift (py_getitem data "metadata") ;;
  do metadata' <- lift (py_getitem data "metadata") ;;
  do count <- lift (py_len metadata') ;;
  ret (VDict [("metadata", metadata);
              ("metric", VStr metric);
              ("tenant", opt_value tenant_name);
              ("count", count)]).

(** [get_targets] *)
Definition get_targets (tenant : option string) : M Value :=
  let tenant_name := py_or tenant (default_tenant config) in
  do data <- make_prometheus_request "targets" None tenant_name ;;
  do active <- lift (py_getitem data "activeTargets") ;;
  do dropped <- lift (py_getitem data "droppedTargets") ;;
  do active_count <- lift (py_len active) ;;
  do dropped_count <- lift (py_len dropped) ;;
  ret (VDict [("activeTargets", active);
              ("droppedTargets", dropped);
              ("tenant", opt_value tenant_name);
              ("active_count", active_count);
              ("dropped_count", dropped_count)]).

(** The [try] block of the loop of [execute_query_all_tenants]: the
    request for one tenant and the entry it stores under [results]. *)
Definition query_tenant (params : list (string * string))
    (tenant : PrometheusTenant) : M Value :=
  do data <- make_prometheus_request "query" (Some params)
               (Some (name tenant)) ;;
  do result_type <- lift (py_getitem data "resultType") ;;
  do result <- lift (py_getitem data "result") ;;
  ret (VDict [("resultType", result_type);
              ("result", result);
              ("success", VBool true)]).

(** The entry stored under [errors] by the [except] block. *)
Definition error_entry (e : Exception) : Value :=
  VDict [("error", VStr (str e)); ("success", VBool false)].

(** One iteration of the loop: [try ... except Exception as e ...]. *)
Definition fan_out_step (params : list (string * string))
    (acc : gmap string Value * gmap string Value)
    (tenant : PrometheusTenant)
    : M (gmap string Value * gmap string Value) :=
  try_except
    (do entry <- query_tenant params tenant ;;
     ret (<[name tenant := entry]> acc.1, acc.2))
    (λ e, ret (acc.1, <[name tenant := error_entry e]> acc.2)).

(** [for tenant in ts: ...] *)
Fixpoint fan_out_loop (params : list (string * string))
    (acc : gmap string Value * gmap string Value)
    (ts : list PrometheusTenant)
    : M (gmap string Value * gmap string Value) :=
  match ts with
  | [] => ret acc
  | tenant :: rest =>
      do acc' <- fan_out_step params acc tenant ;;
      fan_out_loop params acc' rest
  end.

(** [execute_query_all_tenants] *)
Definition execute_query_all_tenants (query : string) (time : option string)
    : M FanOut :=
  let params := query_params query time in
  do acc <- fan_out_loop params (∅, ∅) (tenants config) ;;
  ret {| fo_query := query;
         fo_time := time;
         results := acc.1;
         errors := acc.2;
         successful_tenants := size acc.1;
         failed_tenants := size acc.2;
         total_tenants := length (tenants config) |}.

(** [first_named ts n t]: [t] is the first record of [ts] whose name
    is [n]. *)
Definition first_named (ts : list PrometheusTenant) (n : string)
    (t : PrometheusTenant) : Prop :=
  ∃ before after,
    ts = before ++ t :: after ∧ name t = n ∧
    Forall (λ u, name u ≠ n) before.

(** The outcomes of the per-tenant calls of a fan-out, in order, each
    run in the world its predecessors left behind. *)
Fixpoint outcomes (params : list (string * string))
    (ts : list PrometheusTenant) (s : State) : list (Exception + Value) :=
  match ts with
  | [] => []
  | tenant :: rest =>
      let '(r, s') := query_tenant params tenant s in
      r :: outcomes params rest s'
  end.

Definition succeeded (r : Exception + Value) : bool :=
  match r with inr _ => true | inl _ => false end.

Definition count_succeeded (l : list (Exception + Value)) : nat :=
  length (List.filter succeeded l).

Definition count_failed (l : list (Exception + Value)) : nat :=
  length (List.filter (λ r, negb (succeeded r)) l).

(** [n] is a key of exactly one of the two dictionaries. *)
Definition in_exactly_one (r e : gmap string Value) (n : string) : Prop :=
  (is_Some (r !! n) ∧ e !! n = None) ∨ (r !! n = None ∧ is_Some (e !! n)).

(** The request that the fan-out sends for a tenant of the registry: the
    one built for the record that its name resolves to. *)
Definition request_for (params : list (string * string))
    (tenant : PrometheusTenant) : option Request :=
  build_request "query" (Some params)
    <$> find_tenant (tenants config) (name tenant).

(** The state in which nothing has been sent yet. *)
Definition initial_state (w : World) : State :=
  {| world := w; issued := [] |}.

(** ** [main.py] *)

(** The loop body of [setup_environment]: how the start-up summary names
    the authentication of a tenant. *)
Definition auth_method (tenant : PrometheusTenant) : string :=
  let auth_method := "none" in
  if truthy (username tenant) && truthy (password tenant) then "basic_auth"
  else if truthy (token tenant) then "bearer_token"
  else auth_method.

(** The entry appended to [tenant_summary]. *)
Definition tenant_summary_entry (tenant : PrometheusTenant) : Value :=
  VDict [("name", VStr (name tenant));
         ("url", VStr (url tenant));
         ("authentication", VStr (auth_method tenant));
         ("org_id", if truthy (org_id tenant) then opt_value (org_id tenant)
                    else VNone)].

(** [setup_environment], on the [config] imported from [server.py]: false
    when no tenant is configured, true otherwise. *)
Definition setup_environment (cfg : PrometheusConfig) : bool :=
  match tenants cfg with
  | [] => false
  | _ :: _ => true
  end.

(** The summary that [setup_environment] logs. *)
Definition tenant_summary (cfg : PrometheusConfig) : list Value :=
  map tenant_summary_entry (tenants cfg).

(** How [run_server] ends: [sys.exit(code)], or [mcp.run(transport=...)]. *)
Inductive RunOutcome : Type :=
  | Exit (code : Z)
  | Run (transport : string).

(** [run_server] *)
Definition run_server (cfg : PrometheusConfig) : RunOutcome :=
  if negb (setup_environment cfg) then Exit 1 else Run "stdio".

(** ** Helpers for stating facts *)

(** [k] slashes. *)
Fixpoint slashes (k : nat) : string :=
  match k with
  | 0 => ""
  | S k' => String "/"%char (slashes k')
  end.

(** [s] ends with a slash. *)
Definition ends_with_slash (s : string) : Prop := ∃ s', s = s' +:+ "/".

(** The value stored under [key] in a dictionary value. *)
Definition field (key : string) (v : Value) : option Value :=
  match v with
  | VDict fields => dict_get key fields
  | _ => None
  end.

(** The keys of a dictionary value, in order. *)
Definition keys (v : Value) : list string :=
  match v with
  | VDict fields => map fst fields
  | _ => []
  end.

(** [reaches m req]: from every state, the computation [m] sends the
    request [req] and nothing else. *)
Definition reaches {A} (m : M A) (req : Request) : Prop :=
  ∀ s, issued (m s).2 = issued s ++ [req].

(** * Facts *)

(** ** Strings *)

Lemma str_app_assoc (a b c : string) : (a +:+ b) +:+ c = a +:+ (b +:+ c).
Proof.
  induction a as [|x a IH]; [done|].
  change (String x ((a +:+ b) +:+ c) = String x (a +:+ b +:+ c)).
  by rewrite IH.
Qed.

Lemma str_app_nil_r (a : string) : a +:+ "" = a.
Proof.
  induction a as [|x a IH]; [done|].
  change (String x (a +:+ "") = String x a). by rewrite IH.
Qed.

Lemma contains_here (pre s post : string) :
  Str.contains (pre +:+ s +:+ post) s.
Proof. by exists pre, post. Qed.

Lemma contains_end (pre s : string) : Str.contains (pre +:+ s) s.
Proof. exists pre, "". by rewrite str_app_nil_r. Qed.

Lemma contains_app_r (a b s : string) :
  Str.contains b s → Str.contains (a +:+ b) s.
Proof.
  intros (pre & post & ->). exists (a +:+ pre), post.
  by rewrite str_app_assoc.
Qed.

Lemma contains_app_l (a b s : string) :
  Str.contains a s → Str.contains (a +:+ b) s.
Proof.
  intros (pre & post & ->). exists pre, (post +:+ b).
  by rewrite !str_app_assoc.
Qed.

Lemma contains_join (sep : string) (l : list string) (x : string) :
  x ∈ l → Str.contains (Str.join sep l) x.
Proof.
  induction l as [|y l IH]; intros Hin; [by apply elem_of_nil in Hin|].
  apply elem_of_cons in Hin as [->|Hin].
  - destruct l as [|z l].
    + exists "", "". by rewrite str_app_nil_r.
    + by exists "", (sep +:+ Str.join sep (z :: l)).
  - destruct l as [|z l]; [by apply elem_of_nil in Hin|].
    change (Str.join sep (y :: z :: l))
      with (y +:+ sep +:+ Str.join sep (z :: l)).
    by apply contains_app_r, contains_app_r, IH.
Qed.

(** ** Truthiness *)

Lemma truthy_Some (o : option string) :
  truthy o = true ↔ ∃ s, o = Some s ∧ s ≠ "".
Proof.
  destruct o as [s|]; simpl.
  - destruct (String.eqb_spec s ""); simpl; split.
    + done.
    + intros (? & [= <-] & ?). done.
    + eauto.
    + done.
  - split; [done|]. by intros (? & ? & ?).
Qed.

Lemma truthy_nonempty (s : string) : s ≠ "" → truthy (Some s) = true.
Proof. intros. apply truthy_Some. eauto. Qed.

Lemma py_or_falsy (a b : option string) : truthy a = false → py_or a b = b.
Proof. unfold py_or. by intros ->. Qed.

(** ** Tenant lookup *)

Lemma name_registered (ts : list PrometheusTenant) (t : PrometheusTenant) :
  t ∈ ts → name t ∈ map name ts.
Proof.
  induction ts as [|u ts IH]; intros Hin; [by apply elem_of_nil in Hin|].
  simpl. apply elem_of_cons in Hin as [->|Hin]; [by left|].
  right. by apply IH.
Qed.

Lemma find_tenant_first (ts : list PrometheusTenant) (n : string)
    (t : PrometheusTenant) :
  find_tenant ts n = Some t ↔ first_named ts n t.
Proof.
  induction ts as [|u ts IH]; simpl.
  - split; [done|]. intros (b & a & H & _). by destruct b.
  - destruct (String.eqb_spec (name u) n) as [Heq|Hne].
    + split.
      * intros [= <-]. exists [], ts. by repeat split.
      * intros (b & a & H & Hn & Hb). destruct b as [|v b].
        -- by injection H as -> _.
        -- injection H as <- _. by apply Forall_cons in Hb as [? _].
    + rewrite IH. split.
      * intros (b & a & -> & Hn & Hb). exists (u :: b), a.
        repeat split; [done|]. by apply Forall_cons.
      * intros (b & a & H & Hn & Hb). destruct b as [|v b].
        -- injection H as -> _. done.
        -- injection H as <- ->. apply Forall_cons in Hb as [_ Hb].
           by exists b, a.
Qed.

Lemma find_tenant_Some (ts : list PrometheusTenant) (n : string)
    (t : PrometheusTenant) :
  find_tenant ts n = Some t → t ∈ ts ∧ name t = n.
Proof.
  intros (b & a & -> & Hn & _)%find_tenant_first. split; [|done].
  apply elem_of_app. right. by left.
Qed.

Lemma find_tenant_None (ts : list PrometheusTenant) (n : string) :
  find_tenant ts n = None ↔ n ∉ map name ts.
Proof.
  induction ts as [|u ts IH]; simpl.
  - split; [|done]. intros _ H. by apply elem_of_nil in H.
  - destruct (String.eqb_spec (name u) n) as [Heq|Hne].
    + split; [done|]. intros H. exfalso. apply H. rewrite Heq. by left.
    + rewrite IH, not_elem_of_cons. split; [by intros ?|by intros [_ ?]].
Qed.

Lemma find_tenant_registered (ts : list PrometheusTenant) (n : string) :
  n ∈ map name ts → is_Some (find_tenant ts n).
Proof.
  intros Hin. destruct (find_tenant ts n) eqn:E; [done|].
  by apply find_tenant_None in E.
Qed.

Lemma find_tenant_unique (ts : list PrometheusTenant) (t : PrometheusTenant) :
  NoDup (map name ts) → t ∈ ts → find_tenant ts (name t) = Some t.
Proof.
  induction ts as [|u ts IH]; intros Hnd Hin; [by apply elem_of_nil in Hin|].
  simpl in *. apply NoDup_cons in Hnd as [Hu Hnd].
  apply elem_of_cons in Hin as [->|Hin].
  - by rewrite String.eqb_refl.
  - destruct (String.eqb_spec (name u) (name t)) as [Heq|Hne]; [|by apply IH].
    exfalso. apply Hu. rewrite Heq. by apply name_registered.
Qed.

(** ** Construction of the configuration *)

Lemma init_empty (d : option string) (mcp : MCPServerConfig) :
  PrometheusConfig_init [] d mcp
  = inl (ValueError "At least one tenant must be configured").
Proof. reflexivity. Qed.

Lemma init_unset (first : PrometheusTenant) (rest : list PrometheusTenant)
    (d : option string) (mcp : MCPServerConfig) :
  truthy d = false →
  PrometheusConfig_init (first :: rest) d mcp
  = inr {| tenants := first :: rest;
           default_tenant := Some (name first);
           mcp_server_config := mcp |}.
Proof.
  intros Hd. unfold PrometheusConfig_init, PrometheusConfig_post_init.
  simpl. rewrite Hd. simpl. rewrite String.eqb_refl.
  rewrite bool_decide_true by eauto. simpl. by rewrite andb_false_r.
Qed.

Lemma init_named (ts : list PrometheusTenant) (n : string)
    (mcp : MCPServerConfig) :
  n ≠ "" →
  PrometheusConfig_init ts (Some n) mcp
  = match ts with
    | [] => inl (ValueError "At least one tenant must be configured")
    | _ :: _ =>
        if bool_decide (n ∈ map name ts)
        then inr {| tenants := ts; default_tenant := Some n;
                    mcp_server_config := mcp |}
        else inl (ValueError ("Default tenant '" +:+ n
                              +:+ "' not found in tenant list"))
    end.
Proof.
  intros Hn. destruct ts as [|first rest]; [done|].
  unfold PrometheusConfig_init, PrometheusConfig_post_init.
  pose proof (truthy_nonempty n Hn) as Ht.
  cbn [tenants default_tenant]. rewrite Ht.
  cbn [negb default_tenant get_tenant tenants fmt_opt]. rewrite Ht.
  destruct (find_tenant (first :: rest) n) as [t|] eqn:E.
  - rewrite bool_decide_true by eauto. cbn [negb andb].
    rewrite bool_decide_true; [done|].
    apply find_tenant_Some in E as [Hin <-]. by apply name_registered.
  - rewrite (bool_decide_false (is_Some None)) by by intros [? ?].
    cbn [negb andb]. rewrite bool_decide_false; [done|].
    by apply find_tenant_None.
Qed.

(** What a constructed configuration looks like. *)
Lemma init_inr (ts : list PrometheusTenant) (d : option string)
    (mcp : MCPServerConfig) (cfg : PrometheusConfig) :
  PrometheusConfig_init ts d mcp = inr cfg →
  ∃ first rest,
    ts = first :: rest ∧ tenants cfg = ts ∧ mcp_server_config cfg = mcp ∧
    default_tenant cfg = Some (if truthy d then fmt_opt d else name first) ∧
    (truthy d = true → fmt_opt d ∈ map name ts).
Proof.
  intros H. destruct ts as [|first rest]; [done|]. exists first, rest.
  destruct (truthy d) eqn:Hd.
  - apply truthy_Some in Hd as (n & -> & Hn).
    rewrite (init_named _ _ _ Hn) in H. case_bool_decide; [|done].
    injection H as <-. done.
  - rewrite (init_unset _ _ _ _ Hd) in H. injection H as <-. done.
Qed.

Lemma init_default_registered (ts : list PrometheusTenant)
    (d : option string) (mcp : MCPServerConfig) (cfg : PrometheusConfig) :
  PrometheusConfig_init ts d mcp = inr cfg →
  ∃ n, default_tenant cfg = Some n ∧ n ∈ list_tenant_names cfg.
Proof.
  intros (first & rest & -> & Hts & _ & Hd & Hin)%init_inr.
  eexists; split; [done|]. unfold list_tenant_names. rewrite Hts.
  destruct (truthy d); [by apply Hin|]. by left.
Qed.

(** ** Tenant resolution *)

Lemma resolve_tenant_found (n : string) (t : PrometheusTenant) :
  find_tenant (tenants config) n = Some t → resolve_tenant (Some n) = inr t.
Proof. intros H. unfold resolve_tenant. simpl. by rewrite H. Qed.

Lemma resolve_tenant_default (d : string) :
  default_tenant config = Some d →
  resolve_tenant None = resolve_tenant (Some d).
Proof. intros H. unfold resolve_tenant. simpl. by rewrite H. Qed.

Lemma resolve_tenant_unknown (n : string) :
  n ∉ list_tenant_names config →
  resolve_tenant (Some n)
  = inl (ValueError ("Tenant '" +:+ n +:+ "' not found. Available tenants: "
                     +:+ fmt_names (list_tenant_names config))).
Proof.
  intros H%find_tenant_None. unfold resolve_tenant. simpl. by rewrite H.
Qed.

Lemma resolve_tenant_registered (n : string) :
  n ∈ list_tenant_names config →
  ∃ t, resolve_tenant (Some n) = inr t ∧ first_named (tenants config) n t.
Proof.
  intros [t Ht]%find_tenant_registered. exists t. split.
  - by apply resolve_tenant_found.
  - by apply find_tenant_first.
Qed.

(** ** The request executor *)

Ltac run := unfold bind, ret, raise, lift, try_except; simpl.

(** A request for a resolved tenant is sent exactly once, whatever the
    backend answers. *)
Lemma send_request_issued (endpoint : string)
    (params : option (list (string * string))) (tn : option string)
    (t : PrometheusTenant) (s : State) :
  issued (send_request endpoint params tn t s).2
  = issued s ++ [build_request endpoint params t].
Proof.
  unfold send_request, requests_get. run.
  destruct (http_get _ _) as [[msg|msg|result] w]; simpl; try done.
  destruct (py_getitem result "status") as [e|status]; simpl.
  { by destruct e. }
  destruct (is_str status "success"); simpl.
  - destruct (py_getitem result "data") as [e|?]; simpl; [by destruct e|done].
  - destruct (py_get result "error" _) as [e|?]; simpl; [by destruct e|done].
Qed.

Lemma make_request_found (endpoint : string)
    (params : option (list (string * string))) (n : string)
    (t : PrometheusTenant) :
  find_tenant (tenants config) n = Some t →
  make_prometheus_request endpoint params (Some n)
  = send_request endpoint params (Some n) t.
Proof.
  intros H. unfold make_prometheus_request.
  rewrite (resolve_tenant_found _ _ H). reflexivity.
Qed.

Lemma make_request_unknown (endpoint : string)
    (params : option (list (string * string))) (n : string) (s : State) :
  n ∉ list_tenant_names config →
  make_prometheus_request endpoint params (Some n) s
  = (inl (ValueError ("Tenant '" +:+ n
                      +:+ "' not found. Available tenants: "
                      +:+ fmt_names (list_tenant_names config))), s).
Proof.
  intros H. unfold make_prometheus_request.
  by rewrite (resolve_tenant_unknown _ H).
Qed.

(** The backend's error envelope becomes a [ValueError]. *)
Lemma send_request_backend_error (endpoint : string)
    (params : option (list (string * string))) (tn : option string)
    (t : PrometheusTenant) (s : State)
    (fields : list (string * Value)) (status : Value) (w : World) :
  http_get (build_request endpoint params t) (world s)
    = (Body (VDict fields), w) →
  dict_get "status" fields = Some status →
  is_str status "success" = false →
  send_request endpoint params tn t s
  = (inl (ValueError
            ("Prometheus API error for tenant '" +:+ fmt_opt tn +:+ "': "
             +:+ fmt_value (default (VStr "Unknown error")
                                    (dict_get "error" fields)))),
     {| world := w;
        issued := issued s ++ [build_request endpoint params t] |}).
Proof.
  intros Hget Hstatus Hne. unfold send_request, requests_get. run.
  rewrite Hget. simpl. rewrite Hstatus. simpl. rewrite Hne. reflexivity.
Qed.

(** ** The fan-out loop *)

Lemma count_total (l : list (Exception + Value)) :
  count_succeeded l + count_failed l = length l.
Proof.
  unfold count_succeeded, count_failed.
  induction l as [|[e|v] l IH]; simpl; lia.
Qed.

Lemma outcomes_length (params : list (string * string))
    (ts : list PrometheusTenant) (s : State) :
  length (outcomes params ts s) = length ts.
Proof.
  revert s. induction ts as [|t ts IH]; intros s; simpl; [done|].
  destruct (query_tenant params t s) as [r s1]. simpl. by rewrite IH.
Qed.

(** One round of the loop: whatever the call for [t] does, the loop goes
    on with the remaining tenants. *)
Lemma fan_out_loop_cons (params : list (string * string))
    (acc : gmap string Value * gmap string Value)
    (t : PrometheusTenant) (rest : list PrometheusTenant) (s : State) :
  fan_out_loop params acc (t :: rest) s
  = match query_tenant params t s with
    | (inr entry, s1) =>
        fan_out_loop params (<[name t := entry]> acc.1, acc.2) rest s1
    | (inl e, s1) =>
        fan_out_loop params (acc.1, <[name t := error_entry e]> acc.2) rest s1
    end.
Proof.
  simpl. unfold bind at 1. unfold fan_out_step, try_except.
  unfold bind at 1. by destruct (query_tenant params t s) as [[e|entry] s1].
Qed.

Lemma fan_out_loop_app (params : list (string * string))
    (l1 l2 : list PrometheusTenant) :
  ∀ acc s acc1 s1,
    fan_out_loop params acc l1 s = (inr acc1, s1) →
    fan_out_loop params acc (l1 ++ l2) s = fan_out_loop params acc1 l2 s1.
Proof.
  induction l1 as [|t l1 IH]; intros acc s acc1 s1 H.
  - by injection H as -> ->.
  - rewrite <- app_comm_cons, fan_out_loop_cons.
    rewrite fan_out_loop_cons in H.
    destruct (query_tenant params t s) as [[e|entry] s0]; by apply IH.
Qed.

Lemma fan_out_loop_total (params : list (string * string))
    (ts : list PrometheusTenant) :
  ∀ acc s, ∃ acc' s', fan_out_loop params acc ts s = (inr acc', s').
Proof.
  induction ts as [|t ts IH]; intros acc s.
  - by exists acc, s.
  - rewrite fan_out_loop_cons.
    destruct (query_tenant params t s) as [[e|entry] s1]; apply IH.
Qed.

(** Keys that name no tenant of the loop are left alone. *)
Lemma fan_out_loop_frame (params : list (string * string))
    (ts : list PrometheusTenant) (n : string) :
  ∀ acc s acc' s',
    fan_out_loop params acc ts s = (inr acc', s') →
    n ∉ map name ts →
    acc'.1 !! n = acc.1 !! n ∧ acc'.2 !! n = acc.2 !! n.
Proof.
  induction ts as [|t ts IH]; intros acc s acc' s' H Hn.
  - by injection H as -> ->.
  - simpl in Hn. apply not_elem_of_cons in Hn as [Hne Hn].
    rewrite fan_out_loop_cons in H.
    destruct (query_tenant params t s) as [[e|entry] s1];
      destruct (IH _ _ _ _ H Hn) as [H1 H2]; simpl in *;
      rewrite ?lookup_insert_ne in * by done; done.
Qed.

(** Entries are never removed. *)
Lemma fan_out_loop_keeps_errors (params : list (string * string))
    (ts : list PrometheusTenant) (n : string) :
  ∀ acc s acc' s',
    fan_out_loop params acc ts s = (inr acc', s') →
    is_Some (acc.2 !! n) → is_Some (acc'.2 !! n).
Proof.
  induction ts as [|t ts IH]; intros acc s acc' s' H Hn.
  - by injection H as -> ->.
  - rewrite fan_out_loop_cons in H.
    destruct (query_tenant params t s) as [[e|entry] s1];
      apply (IH _ _ _ _ H); simpl; [|done].
    apply lookup_insert_is_Some. destruct (decide (name t = n)); eauto.
Qed.

Lemma fan_out_loop_counts (params : list (string * string))
    (ts : list PrometheusTenant) :
  ∀ acc s acc' s',
    fan_out_loop params acc ts s = (inr acc', s') →
    NoDup (map name ts) →
    (∀ n, n ∈ map name ts → acc.1 !! n = None ∧ acc.2 !! n = None) →
    size acc'.1 = size acc.1 + count_succeeded (outcomes params ts s) ∧
    size acc'.2 = size acc.2 + count_failed (outcomes params ts s).
Proof.
  induction ts as [|t ts IH]; intros acc s acc' s' H Hnd Hfresh.
  - injection H as -> ->. unfold count_succeeded, count_failed. simpl. lia.
  - simpl in Hnd. apply NoDup_cons in Hnd as [Ht Hnd].
    destruct (Hfresh (name t)) as [Hr He]; [by left|].
    rewrite fan_out_loop_cons in H. simpl.
    destruct (query_tenant params t s) as [[e|entry] s1];
      (destruct (IH _ _ _ _ H Hnd) as [H1 H2];
       [ intros n Hn; simpl;
         assert (name t ≠ n) by (intros Heq; apply Ht; by rewrite Heq);
         rewrite ?lookup_insert_ne by done; apply Hfresh; by right
       | simpl in H1, H2; unfold count_succeeded, count_failed in *; simpl;
         rewrite ?map_size_insert_None in * by done; lia ]).
Qed.

Lemma fan_out_loop_partition (params : list (string * string))
    (ts : list PrometheusTenant) :
  ∀ acc s acc' s',
    fan_out_loop params acc ts s = (inr acc', s') →
    NoDup (map name ts) →
    (∀ n, n ∈ map name ts → acc.1 !! n = None ∧ acc.2 !! n = None) →
    ∀ n, n ∈ map name ts → in_exactly_one acc'.1 acc'.2 n.
Proof.
  induction ts as [|t ts IH]; intros acc s acc' s' H Hnd Hfresh n Hn.
  - by apply elem_of_nil in Hn.
  - simpl in Hnd, Hn. apply NoDup_cons in Hnd as [Ht Hnd].
    destruct (Hfresh (name t)) as [Hr He]; [by left|].
    rewrite fan_out_loop_cons in H.
    apply elem_of_cons in Hn as [->|Hn].
    + destruct (query_tenant params t s) as [[e|entry] s1];
        destruct (fan_out_loop_frame _ _ _ _ _ _ _ H Ht) as [H1 H2];
        simpl in H1, H2; rewrite ?lookup_insert_eq in *;
        unfold in_exactly_one; rewrite H1, H2; eauto.
    + destruct (query_tenant params t s) as [[e|entry] s1];
        (apply (IH _ _ _ _ H Hnd); [|done];
         intros m Hm; simpl;
         assert (name t ≠ m) by (intros Heq; apply Ht; by rewrite Heq);
         rewrite ?lookup_insert_ne by done; apply Hfresh; by right).
Qed.

(** The call for a tenant of the registry sends its request exactly once,
    whether it succeeds or not. *)
Lemma query_tenant_issued (params : list (string * string))
    (t : PrometheusTenant) (req : Request) (s : State) :
  request_for params t = Some req →
  issued (query_tenant params t s).2 = issued s ++ [req].
Proof.
  unfold request_for. destruct (find_tenant _ _) as [t'|] eqn:E; [|done].
  intros [= <-]. unfold query_tenant.
  rewrite (make_request_found _ _ _ _ E). unfold bind at 1.
  pose proof (send_request_issued "query" (Some params)
                (Some (name t)) t' s) as Hs.
  destruct (send_request _ _ _ _ s) as [[e|data] s1]; simpl in *; [done|].
  run. destruct (py_getitem data "resultType"); simpl; [done|].
  destruct (py_getitem data "result"); simpl; done.
Qed.

Lemma request_for_registered (params : list (string * string))
    (t : PrometheusTenant) :
  t ∈ tenants config → is_Some (request_for params t).
Proof.
  intros Hin. unfold request_for.
  destruct (find_tenant_registered (tenants config) (name t)) as [t' ->];
    [by apply name_registered | by eexists].
Qed.

(** The loop sends one request per tenant, in order. *)
Lemma fan_out_loop_issued (params : list (string * string))
    (ts : list PrometheusTenant) :
  ∀ acc s acc' s',
    fan_out_loop params acc ts s = (inr acc', s') →
    (∀ t, t ∈ ts → t ∈ tenants config) →
    ∃ reqs, issued s' = issued s ++ reqs ∧
            Forall2 (λ t req, request_for params t = Some req) ts reqs.
Proof.
  induction ts as [|t ts IH]; intros acc s acc' s' H Hsub.
  - injection H as -> ->. exists []. by rewrite app_nil_r.
  - destruct (request_for_registered params t) as [req Hreq];
      [apply Hsub; by left|].
    pose proof (query_tenant_issued params t req s Hreq) as Hq.
    rewrite fan_out_loop_cons in H.
    destruct (query_tenant params t s) as [[e|entry] s1]; simpl in Hq;
      (destruct (IH _ _ _ _ H) as (reqs & Hi & Hf);
       [ intros u Hu; apply Hsub; by right
       | exists (req :: reqs); split;
         [ by rewrite Hi, Hq, <- app_assoc | by constructor ] ]).
Qed.

Lemma execute_query_all_tenants_run (query : string) (time : option string)
    (s : State) :
  ∃ acc s',
    fan_out_loop (query_params query time) (∅, ∅) (tenants config) s
      = (inr acc, s') ∧
    execute_query_all_tenants query time s
      = (inr {| fo_query := query; fo_time := time;
                results := acc.1; errors := acc.2;
                successful_tenants := size acc.1;
                failed_tenants := size acc.2;
                total_tenants := length (tenants config) |}, s').
Proof.
  destruct (fan_out_loop_total (query_params query time) (tenants config)
              (∅, ∅) s) as (acc & s' & H).
  exists acc, s'. split; [done|].
  unfold execute_query_all_tenants, bind. by rewrite H.
Qed.

(** ** The handlers pass on what the executor raises *)

Lemma execute_query_raises (query : string) (time tenant : option string)
    (s s' : State) (e : Exception) :
  make_prometheus_request "query" (Some (query_params query time))
    (py_or tenant (default_tenant config)) s = (inl e, s') →
  execute_query query time tenant s = (inl e, s').
Proof. intros H. unfold execute_query, bind. by rewrite H. Qed.

(** * The claims *)

(** C1, amended.  When the tenant names of the registry are pairwise
    distinct, a fan-out over its N tenants returns normally;
    [successful_tenants] is the number M of per-tenant calls that
    succeeded, [failed_tenants] the number N - M of those that failed,
    their sum is [total_tenants], which is N; every registered name is a
    key of exactly one of [results] and [errors], and no other name is a
    key of either. *)
Theorem fan_out_counts (query : string) (time : option string) (s : State) :
  NoDup (list_tenant_names config) →
  ∃ r s',
    execute_query_all_tenants query time s = (inr r, s') ∧
    successful_tenants r
      = count_succeeded
          (outcomes (query_params query time) (tenants config) s) ∧
    failed_tenants r
      = count_failed
          (outcomes (query_params query time) (tenants config) s) ∧
    successful_tenants r + failed_tenants r = total_tenants r ∧
    total_tenants r = length (tenants config) ∧
    successful_tenants r = size (results r) ∧
    failed_tenants r = size (errors r) ∧
    (∀ n, n ∈ list_tenant_names config →
          in_exactly_one (results r) (errors r) n) ∧
    (∀ n, n ∉ list_tenant_names config →
          results r !! n = None ∧ errors r !! n = None).
Proof.
  intros Hnd.
  destruct (execute_query_all_tenants_run query time s)
    as (acc & s' & Hloop & Hrun).
  eexists _, s'. split; [exact Hrun|]. simpl.
  destruct (fan_out_loop_counts _ _ _ _ _ _ Hloop Hnd) as [H1 H2];
    [by intros n _|].
  simpl in H1, H2. rewrite map_size_empty in H1, H2. simpl in H1, H2.
  pose proof (count_total
                (outcomes (query_params query time) (tenants config) s)) as Ht.
  rewrite outcomes_length in Ht.
  repeat split; try done; try lia.
  - intros n Hn. by apply (fan_out_loop_partition _ _ _ _ _ _ Hloop Hnd).
  - by destruct (fan_out_loop_frame _ _ n _ _ _ _ Hloop H) as [-> _].
  - by destruct (fan_out_loop_frame _ _ n _ _ _ _ Hloop H) as [_ ->].
Qed.

(** C2, amended.  Let the call for tenant [t], which comes after the
    tenants [before] in the registry, fail with [e].  Then the fan-out still
    returns normally; the loop goes on with every tenant [after] it, each
    of which gets its request sent; the key [name t] is in [errors]; and
    when no later tenant bears the same name, its entry holds [str(e)]. *)
Theorem fan_out_isolates_failures (query : string) (time : option string)
    (s : State) (before after : list PrometheusTenant) (t : PrometheusTenant)
    (acc_k : gmap string Value * gmap string Value) (s_k s_e : State)
    (e : Exception) :
  tenants config = before ++ t :: after →
  fan_out_loop (query_params query time) (∅, ∅) before s = (inr acc_k, s_k) →
  query_tenant (query_params query time) t s_k = (inl e, s_e) →
  ∃ r s',
    execute_query_all_tenants query time s = (inr r, s') ∧
    fan_out_loop (query_params query time)
      (acc_k.1, <[name t := error_entry e]> acc_k.2) after s_e
      = (inr (results r, errors r), s') ∧
    (∃ reqs, issued s' = issued s_e ++ reqs ∧
             Forall2 (λ u req, request_for (query_params query time) u
                               = Some req) after reqs) ∧
    is_Some (errors r !! name t) ∧
    (name t ∉ map name after →
     errors r !! name t
     = Some (VDict [("error", VStr (str e)); ("success", VBool false)])).
Proof.
  intros Hts Hbefore Hfail.
  destruct (execute_query_all_tenants_run query time s)
    as (acc & s' & Hloop & Hrun).
  eexists _, s'. split; [exact Hrun|]. simpl.
  rewrite Hts in Hloop.
  rewrite (fan_out_loop_app _ _ _ _ _ _ _ Hbefore) in Hloop.
  rewrite fan_out_loop_cons, Hfail in Hloop.
  split; [by destruct acc|]. split; [|split].
  - apply (fan_out_loop_issued _ _ _ _ _ _ Hloop).
    intros u Hu. rewrite Hts. apply elem_of_app. right. by right.
  - apply (fan_out_loop_keeps_errors _ _ _ _ _ _ _ Hloop). simpl.
    rewrite lookup_insert_eq. by eexists.
  - intros Hlast.
    destruct (fan_out_loop_frame _ _ _ _ _ _ _ Hloop Hlast) as [_ ->].
    simpl. by rewrite lookup_insert_eq.
Qed.

(** C3.  For every tenant record: a token that is present (set to a
    non-empty string, which is how the source tests the fields) gives the
    bearer header, also when a user name and a password are set, and the
    request then carries no basic credentials; without a token, a user
    name and a password that are both present give basic credentials;
    in every other case there are no credentials. *)
Theorem auth_precedence (t : PrometheusTenant) :
  (∀ tok, token t = Some tok → tok ≠ "" →
     get_prometheus_auth t
       = AuthHeaders [("Authorization", "Bearer " +:+ tok)] ∧
     ∀ endpoint params,
       req_auth (build_request endpoint params t) = NoAuth ∧
       dict_get "Authorization"
         (req_headers (build_request endpoint params t))
         = Some ("Bearer " +:+ tok)) ∧
  (truthy (token t) = false →
   ∀ user pass, username t = Some user → user ≠ "" →
                password t = Some pass → pass ≠ "" →
     get_prometheus_auth t = HTTPBasicAuth user pass) ∧
  (truthy (token t) = false →
   truthy (username t) = false ∨ truthy (password t) = false →
     get_prometheus_auth t = NoAuth).
Proof.
  unfold get_prometheus_auth. split; [|split].
  - intros tok Htok Hne. pose proof (truthy_nonempty _ Hne) as Ht.
    split; [by rewrite Htok, Ht|].
    intros endpoint params. unfold build_request, get_prometheus_auth.
    rewrite Htok, Ht. simpl. by destruct (truthy (org_id t)).
  - intros Htok user pass Hu Hune Hp Hpne. rewrite Htok, Hu, Hp.
    by rewrite (truthy_nonempty _ Hune), (truthy_nonempty _ Hpne).
  - intros Htok [Hu|Hp]; rewrite Htok.
    + by rewrite Hu.
    + rewrite Hp. by rewrite andb_false_r.
Qed.

(** What [has_auth] is in the summary of a tenant. *)
Lemma tenant_info_has_auth (t : PrometheusTenant) :
  tenant_info t
  = VDict [("name", VStr (name t)); ("url", VStr (url t));
           ("has_auth", VBool (truthy (username t) || truthy (token t)));
           ("org_id", opt_value (org_id t))].
Proof.
  unfold tenant_info, py_or.
  destruct (truthy (username t)) eqn:E; simpl; by rewrite ?E.
Qed.

(** The summary depends on the credentials only through that boolean:
    their values are not in it. *)
Lemma tenant_info_hides_credentials (t u : PrometheusTenant) :
  name t = name u → url t = url u → org_id t = org_id u →
  truthy (username t) || truthy (token t)
    = truthy (username u) || truthy (token u) →
  tenant_info t = tenant_info u.
Proof.
  intros Hn Hu Ho Hb. rewrite !tenant_info_has_auth.
  by rewrite Hn, Hu, Ho, Hb.
Qed.

(** C4, at the failing input: a tenant with a user name and neither a
    password nor a token is listed with [has_auth] true, although it has
    no credential pair and no token, and [get_prometheus_auth] resolves
    it to no credentials. *)
Theorem list_tenants_has_auth_without_password :
  dict_get "has_auth"
    (match tenant_info Sample.half with VDict f => f | _ => [] end)
    = Some (VBool true) ∧
  truthy (username Sample.half) && truthy (password Sample.half)
    || truthy (token Sample.half) = false ∧
  get_prometheus_auth Sample.half = NoAuth.
Proof. by repeat split. Qed.

(** C5.  A request for a name that is not registered raises a
    [ValueError], which is handed to the caller like any other exception:
    the call returns, nothing is sent and the world is as before.  Its
    message holds the requested name and the list of all registered
    names.  The instant-query tool passes the same exception on. *)
Theorem unknown_tenant_is_reported (endpoint : string)
    (params : option (list (string * string))) (n : string) (s : State) :
  n ∉ list_tenant_names config →
  ∃ msg,
    make_prometheus_request endpoint params (Some n) s
      = (inl (ValueError msg), s) ∧
    msg = "Tenant '" +:+ n +:+ "' not found. Available tenants: "
          +:+ fmt_names (list_tenant_names config) ∧
    Str.contains msg n ∧
    Str.contains msg (fmt_names (list_tenant_names config)) ∧
    (∀ m, m ∈ list_tenant_names config → Str.contains msg (repr_str m)) ∧
    (n ≠ "" → ∀ query time,
       execute_query query time (Some n) s = (inl (ValueError msg), s)).
Proof.
  intros Hn. eexists. split; [by apply make_request_unknown|].
  split; [done|]. repeat split.
  - apply contains_here.
  - apply contains_app_r, contains_app_r, contains_end.
  - intros m Hm. do 3 apply contains_app_r. unfold fmt_names.
    apply contains_app_r, contains_app_l, contains_join.
    unfold list_tenant_names in *. clear Hn.
    induction (tenants config) as [|u ts IH]; [by apply elem_of_nil in Hm|].
    simpl in *. apply elem_of_cons in Hm as [->|Hm]; [by left|].
    right. by apply IH.
  - intros Hne query time. apply execute_query_raises.
    unfold py_or. rewrite (truthy_nonempty _ Hne).
    by apply make_request_unknown.
Qed.

(** C7.  When the backend answers a request for a registered tenant with
    a JSON object whose [status] is not ["success"], the executor raises a
    [ValueError] whose message holds the tenant name and the backend's
    error text, or ["Unknown error"] when the object has no [error]
    field; [execute_query] raises the same exception. *)
Theorem backend_error_is_raised (endpoint : string)
    (params : option (list (string * string))) (n : string)
    (t : PrometheusTenant) (s : State)
    (fields : list (string * Value)) (status : Value) (w : World) :
  find_tenant (tenants config) n = Some t →
  http_get (build_request endpoint params t) (world s)
    = (Body (VDict fields), w) →
  dict_get "status" fields = Some status →
  is_str status "success" = false →
  ∃ msg s',
    make_prometheus_request endpoint params (Some n) s
      = (inl (ValueError msg), s') ∧
    msg = "Prometheus API error for tenant '" +:+ n +:+ "': "
          +:+ fmt_value (default (VStr "Unknown error")
                                 (dict_get "error" fields)) ∧
    Str.contains msg n ∧
    (∀ err, dict_get "error" fields = Some (VStr err) →
            Str.contains msg err) ∧
    (dict_get "error" fields = None → Str.contains msg "Unknown error") ∧
    (∀ query time tenant,
       endpoint = "query" → params = Some (query_params query time) →
       py_or tenant (default_tenant config) = Some n →
       execute_query query time tenant s = (inl (ValueError msg), s')).
Proof.
  intros Hfind Hget Hstatus Hne. eexists _, _. split.
  { rewrite (make_request_found _ _ _ _ Hfind).
    by apply (send_request_backend_error _ _ _ _ _ fields status w). }
  split; [done|]. repeat split.
  - apply contains_here.
  - intros err ->. cbn [default fmt_value from_option].
    do 2 apply contains_app_r. apply contains_end.
  - intros ->. cbn [default fmt_value from_option].
    do 2 apply contains_app_r. apply contains_end.
  - intros query time tenant -> -> Hn. apply execute_query_raises.
    rewrite Hn, (make_request_found _ _ _ _ Hfind).
    by apply (send_request_backend_error _ _ _ _ _ fields status w).
Qed.

(** C8, amended.  Construction keeps the tenant sequence as it is and does
    not look for repeated names: the names of a constructed registry are
    pairwise distinct exactly when those of the sequence it was built
    from are. *)
Theorem registry_names_as_given (ts : list PrometheusTenant)
    (d : option string) (mcp : MCPServerConfig) (cfg : PrometheusConfig) :
  PrometheusConfig_init ts d mcp = inr cfg →
  list_tenant_names cfg = map name ts ∧
  (NoDup (list_tenant_names cfg) ↔ NoDup (map name ts)).
Proof.
  intros (first & rest & _ & Hts & _)%init_inr.
  unfold list_tenant_names. by rewrite Hts.
Qed.


(** The tools leave the state as the executor left it. *)
Lemma tools_keep_state (tenant_name : option string) (s : State) :
  (∀ query time,
     (execute_query query time tenant_name s).2
     = (make_prometheus_request "query" (Some (query_params query time))
          (py_or tenant_name (default_tenant config)) s).2) ∧
  (∀ query start end_ step,
     (execute_range_query query start end_ step tenant_name s).2
     = (make_prometheus_request "query_range"
          (Some [("query", query); ("start", start);
                 ("end", end_); ("step", step)])
          (py_or tenant_name (default_tenant config)) s).2) ∧
  (list_metrics tenant_name s).2
  = (make_prometheus_request "label/__name__/values" None
       (py_or tenant_name (default_tenant config)) s).2 ∧
  (∀ metric,
     (get_metric_metadata metric tenant_name s).2
     = (make_prometheus_request "metadata" (Some [("metric", metric)])
          (py_or tenant_name (default_tenant config)) s).2) ∧
  (get_targets tenant_name s).2
  = (make_prometheus_request "targets" None
       (py_or tenant_name (default_tenant config)) s).2.
Proof.
  repeat split; intros;
    unfold execute_query, execute_range_query, list_metrics,
      get_metric_metadata, get_targets;
    unfold bind at 1;
    destruct (make_prometheus_request _ _ _ s) as [[e|data] s1];
    simpl; try reflexivity; run;
    repeat match goal with
           | |- context [py_getitem ?d ?k] =>
               destruct (py_getitem d k); simpl; try reflexivity
           | |- context [py_len ?d] =>
               destruct (py_len d); simpl; try reflexivity
           end.
Qed.

Lemma make_request_reaches (endpoint : string)
    (params : option (list (string * string))) (n : string)
    (t : PrometheusTenant) :
  find_tenant (tenants config) n = Some t →
  reaches (make_prometheus_request endpoint params (Some n))
          (build_request endpoint params t).
Proof.
  intros Hfind s. rewrite (make_request_found _ _ _ _ Hfind).
  apply send_request_issued.
Qed.

(** C10.  In a constructed configuration, let [t] be the record of the
    default tenant.  Each of the five tools with an optional tenant, called
    with the tenant [""], runs the same computation as without a tenant;
    from every state it sends exactly the request built for [t], so it
    never stops at the tenant lookup, whose failure sends nothing; and the
    name handed to the executor resolves to [t]. *)
Theorem empty_tenant_means_default (ts : list PrometheusTenant)
    (d : option string) (mcp : MCPServerConfig) :
  PrometheusConfig_init ts d mcp = inr config →
  ∃ dn t,
    default_tenant config = Some dn ∧
    first_named (tenants config) dn t ∧
    resolve_tenant (py_or (Some "") (default_tenant config)) = inr t ∧
    (∀ query time,
       execute_query query time (Some "") = execute_query query time None ∧
       reaches (execute_query query time (Some ""))
               (build_request "query" (Some (query_params query time)) t)) ∧
    (∀ query start end_ step,
       execute_range_query query start end_ step (Some "")
       = execute_range_query query start end_ step None ∧
       reaches (execute_range_query query start end_ step (Some ""))
               (build_request "query_range"
                  (Some [("query", query); ("start", start);
                         ("end", end_); ("step", step)]) t)) ∧
    (list_metrics (Some "") = list_metrics None ∧
     reaches (list_metrics (Some ""))
             (build_request "label/__name__/values" None t)) ∧
    (∀ metric,
       get_metric_metadata metric (Some "")
       = get_metric_metadata metric None ∧
       reaches (get_metric_metadata metric (Some ""))
               (build_request "metadata" (Some [("metric", metric)]) t)) ∧
    (get_targets (Some "") = get_targets None ∧
     reaches (get_targets (Some "")) (build_request "targets" None t)) ∧
    (∀ tool : M Value, ∀ req s e,
       reaches tool req → tool s ≠ (inl e, s)) ∧
    ∀ endpoint params,
      make_prometheus_request endpoint params
        (py_or (Some "") (default_tenant config))
      = send_request endpoint params (Some dn) t.
Proof.
  intros (dn & Hd & Hin)%init_default_registered.
  destruct (find_tenant_registered _ _ Hin) as [t Ht].
  assert (py_or (Some "") (default_tenant config) = Some dn) as Hor
    by (by rewrite <- Hd).
  exists dn, t. split; [done|]. split; [by apply find_tenant_first|].
  split; [by rewrite Hor; apply resolve_tenant_found|].
  repeat split; try done.
  - intros s.
    rewrite (proj1 (tools_keep_state (Some "") s) query time), Hor.
    by apply make_request_reaches.
  - intros s.
    rewrite (proj1 (proj2 (tools_keep_state (Some "") s))
               query start end_ step), Hor.
    by apply make_request_reaches.
  - intros s.
    rewrite (proj1 (proj2 (proj2 (tools_keep_state (Some "") s)))), Hor.
    by apply make_request_reaches.
  - intros s.
    rewrite (proj1 (proj2 (proj2 (proj2 (tools_keep_state (Some "") s))))
               metric), Hor.
    by apply make_request_reaches.
  - intros s.
    rewrite (proj2 (proj2 (proj2 (proj2 (tools_keep_state (Some "") s))))),
      Hor.
    by apply make_request_reaches.
  - intros tool req s e Hreach Hfail. specialize (Hreach s).
    rewrite Hfail in Hreach. simpl in Hreach.
    apply (f_equal length) in Hreach. rewrite length_app in Hreach.
    simpl in Hreach. lia.
  - intros endpoint params. rewrite Hor. by apply make_request_found.
Qed.

(** * Further properties of the code *)

(** ** Trailing slashes of the tenant URL *)

Lemma str_cons_app (c : ascii) (a b : string) :
  String c a +:+ b = String c (a +:+ b).
Proof. reflexivity. Qed.

Lemma rev_app_spec (s acc : string) :
  String.rev_app s acc = String.rev s +:+ acc.
Proof.
  revert acc. induction s as [|c s IH]; intros acc; [done|].
  unfold String.rev. simpl. rewrite IH, (IH (String c "")).
  by rewrite str_app_assoc.
Qed.

Lemma rev_cons (c : ascii) (s : string) :
  String.rev (String c s) = String.rev s +:+ String c "".
Proof. unfold String.rev at 1. simpl. by rewrite rev_app_spec. Qed.

Lemma rev_app_distr (a b : string) :
  String.rev (a +:+ b) = String.rev b +:+ String.rev a.
Proof.
  induction a as [|c a IH].
  - change ("" +:+ b) with b. by rewrite str_app_nil_r.
  - rewrite str_cons_app, !rev_cons, IH. by rewrite str_app_assoc.
Qed.

Lemma rev_involutive (s : string) : String.rev (String.rev s) = s.
Proof.
  induction s as [|c s IH]; [done|].
  rewrite rev_cons, rev_app_distr, IH. reflexivity.
Qed.

Lemma slashes_snoc (k : nat) : slashes (S k) = slashes k +:+ "/".
Proof.
  induction k as [|k IH]; [done|].
  change (String "/"%char (slashes (S k))
          = String "/"%char (slashes k +:+ "/")).
  by rewrite <- IH.
Qed.

Lemma rev_slashes (k : nat) : String.rev (slashes k) = slashes k.
Proof.
  induction k as [|k IH]; [done|].
  change (slashes (S k)) with (String "/"%char (slashes k)) at 1.
  by rewrite rev_cons, IH, slashes_snoc.
Qed.

Lemma drop_slashes_split (s : string) :
  ∃ k, s = slashes k +:+ Str.drop_slashes s.
Proof.
  induction s as [|c s [k IH]]; [by exists 0|].
  destruct (Ascii.eqb_spec c "/"%char) as [->|Hc].
  - exists (S k). simpl. rewrite str_cons_app. by f_equal.
  - exists 0. simpl.
    destruct c as [[] [] [] [] [] [] [] []]; try reflexivity. by destruct Hc.
Qed.

Lemma drop_slashes_head (s rest : string) :
  Str.drop_slashes s ≠ String "/"%char rest.
Proof.
  induction s as [|c s IH]; [done|]. simpl.
  destruct c as [[] [] [] [] [] [] [] []]; try done.
Qed.

(** X1.  [rstrip('/')] takes away the trailing slashes and nothing else:
    the string is what is left followed by slashes only, and what is left
    does not end with a slash. *)
Theorem rstrip_slash_spec (s : string) :
  (∃ k, s = Str.rstrip_slash s +:+ slashes k) ∧
  ¬ ends_with_slash (Str.rstrip_slash s).
Proof.
  unfold Str.rstrip_slash. split.
  - destruct (drop_slashes_split (String.rev s)) as [k Hk]. exists k.
    rewrite <- (rev_involutive s) at 1. rewrite Hk at 1.
    by rewrite rev_app_distr, rev_slashes.
  - intros [s' Hs']. apply (f_equal String.rev) in Hs'.
    rewrite rev_involutive, rev_app_distr in Hs'.
    by apply drop_slashes_head in Hs'.
Qed.

Lemma rstrip_slash_slashes (base : string) (k : nat) :
  Str.rstrip_slash (base +:+ slashes k) = Str.rstrip_slash base.
Proof.
  unfold Str.rstrip_slash. rewrite rev_app_distr, rev_slashes. f_equal.
  induction k as [|k IH]; [done|]. exact IH.
Qed.

Lemma rstrip_slash_id (base : string) :
  ¬ ends_with_slash base → Str.rstrip_slash base = base.
Proof.
  intros Hend. destruct (rstrip_slash_spec base) as [[k Hk] _].
  destruct k as [|k].
  - by rewrite str_app_nil_r in Hk.
  - exfalso. apply Hend. exists (Str.rstrip_slash base +:+ slashes k).
    rewrite Hk at 1. by rewrite slashes_snoc, str_app_assoc.
Qed.

(** X2.  The URL of a request is the tenant URL without its trailing
    slashes, then [/api/v1/], then the endpoint: tenant URLs that differ
    only in trailing slashes give the same request URL. *)
Theorem request_url_ignores_trailing_slashes (endpoint : string)
    (params : option (list (string * string))) (t : PrometheusTenant)
    (base : string) (k : nat) :
  url t = base +:+ slashes k →
  ¬ ends_with_slash base →
  req_url (build_request endpoint params t)
  = base +:+ "/api/v1/" +:+ endpoint.
Proof.
  intros Hurl Hbase. unfold build_request.
  destruct (get_prometheus_auth t); simpl;
    by rewrite Hurl, rstrip_slash_slashes, (rstrip_slash_id _ Hbase).
Qed.

(** ** Validation and lookup *)

(** X3.  [PrometheusTenant.__post_init__] accepts a record, unchanged,
    exactly when its name and its URL are not empty; the name is checked
    first, and the message about a missing URL names the tenant. *)
Theorem tenant_validation (t : PrometheusTenant) :
  (∀ t', PrometheusTenant_post_init t = inr t'
         ↔ t' = t ∧ name t ≠ "" ∧ url t ≠ "") ∧
  (name t = "" →
   PrometheusTenant_post_init t = inl (ValueError "Tenant name is required")) ∧
  (name t ≠ "" → url t = "" →
   ∃ msg, PrometheusTenant_post_init t = inl (ValueError msg) ∧
          Str.contains msg (name t)).
Proof.
  unfold PrometheusTenant_post_init.
  destruct (String.eqb_spec (name t) "") as [Hn|Hn];
    destruct (String.eqb_spec (url t) "") as [Hu|Hu];
    (split; [|split]); try done;
    try (intros t'; split; [by intros [= <-] | by intros (-> & ? & ?)]);
    try (intros t'; split; [done | by intros (_ & ? & ?)]).
  intros _ _. eexists. split; [done|]. apply contains_here.
Qed.

(** X4.  [get_tenant] and [list_tenant_names] agree: a name is found
    exactly when it is listed, the record found is one of the registry and
    bears that name, and [None] finds nothing. *)
Theorem get_tenant_agrees_with_names (cfg : PrometheusConfig) (n : string) :
  (is_Some (get_tenant cfg (Some n)) ↔ n ∈ list_tenant_names cfg) ∧
  (∀ t, get_tenant cfg (Some n) = Some t → t ∈ tenants cfg ∧ name t = n) ∧
  get_tenant cfg None = None.
Proof.
  unfold get_tenant, list_tenant_names. split; [|split; [|done]].
  - split.
    + intros [t Ht]. destruct (decide (n ∈ map name (tenants cfg))); [done|].
      apply find_tenant_None in n0. by rewrite n0 in Ht.
    + apply find_tenant_registered.
  - intros t. apply find_tenant_Some.
Qed.

(** X5.  The configuration is constructed exactly when the tenant sequence
    is not empty and the default, if one is configured, names a record. *)
Theorem config_accepted_iff (ts : list PrometheusTenant) (d : option string)
    (mcp : MCPServerConfig) :
  (∃ cfg, PrometheusConfig_init ts d mcp = inr cfg)
  ↔ ts ≠ [] ∧ (truthy d = true → fmt_opt d ∈ map name ts).
Proof.
  split.
  - intros [cfg (first & rest & -> & _ & _ & _ & Hd)%init_inr]. by split.
  - intros [Hne Hd]. destruct ts as [|first rest]; [done|].
    destruct (truthy d) eqn:Ht.
    + apply truthy_Some in Ht as (n & -> & Hn). rewrite (init_named _ _ _ Hn).
      rewrite bool_decide_true by by apply Hd.
      by eexists.
    + rewrite (init_unset _ _ _ _ Ht). by eexists.
Qed.

(** ** The request that is built *)

(** X6.  The headers of a request are the bearer header, if the tenant has
    a token, followed by [X-Scope-OrgID], if it has an organisation; the
    parameters are passed as given; basic credentials and a bearer header
    never travel together. *)
Theorem request_headers (endpoint : string)
    (params : option (list (string * string))) (t : PrometheusTenant) :
  req_headers (build_request endpoint params t)
  = (if truthy (token t)
     then [("Authorization", "Bearer " +:+ fmt_opt (token t))] else [])
    ++ (if truthy (org_id t)
        then [("X-Scope-OrgID", fmt_opt (org_id t))] else []) ∧
  req_params (build_request endpoint params t) = params ∧
  (∀ user pass,
     req_auth (build_request endpoint params t) = HTTPBasicAuth user pass →
     truthy (token t) = false ∧
     dict_get "Authorization" (req_headers (build_request endpoint params t))
       = None) ∧
  (truthy (token t) = true →
   req_auth (build_request endpoint params t) = NoAuth).
Proof.
  unfold build_request, get_prometheus_auth.
  destruct (truthy (token t)) eqn:Htok;
    destruct (truthy (username t) && truthy (password t));
    destruct (truthy (org_id t)); simpl; repeat split; try done.
Qed.

(** ** How the executor classifies what the backend does *)

(** X7.  A transport failure ([requests.get] or [raise_for_status]
    raising a [RequestException]) is passed on unchanged, after the one
    request was sent. *)
Theorem transport_failure_propagates (endpoint : string)
    (params : option (list (string * string))) (n : string)
    (t : PrometheusTenant) (s : State) (msg : string) (w : World) :
  find_tenant (tenants config) n = Some t →
  http_get (build_request endpoint params t) (world s)
    = (RaisesRequestException msg, w) →
  make_prometheus_request endpoint params (Some n) s
  = (inl (RequestException msg),
     {| world := w; issued := issued s ++ [build_request endpoint params t] |}).
Proof.
  intros Hfind Hget. rewrite (make_request_found _ _ _ _ Hfind).
  unfold send_request, requests_get. run. by rewrite Hget.
Qed.

Lemma is_str_true (v : Value) (s : string) : is_str v s = true ↔ v = VStr s.
Proof.
  destruct v; simpl; try (split; [done|by intros [=]]).
  destruct (String.eqb_spec s0 s) as [->|Hne]; split; try done.
  by intros [= ->].
Qed.

(** X9.  A request for a registered tenant returns a payload exactly when
    the backend answers with a JSON object whose [status] is ["success"]
    and which has a [data] field; the payload is that field, unchanged. *)
Theorem request_succeeds_iff (endpoint : string)
    (params : option (list (string * string))) (n : string)
    (t : PrometheusTenant) (s s' : State) (data : Value) :
  find_tenant (tenants config) n = Some t →
  (make_prometheus_request endpoint params (Some n) s = (inr data, s')
   ↔ ∃ fields w,
       http_get (build_request endpoint params t) (world s)
         = (Body (VDict fields), w) ∧
       dict_get "status" fields = Some (VStr "success") ∧
       dict_get "data" fields = Some data ∧
       s' = {| world := w;
               issued := issued s ++ [build_request endpoint params t] |}).
Proof.
  intros Hfind. rewrite (make_request_found _ _ _ _ Hfind).
  unfold send_request, requests_get. run.
  destruct (http_get _ _) as [[msg|msg|result] w]; simpl.
  - split; [done|]. by intros (? & ? & [=] & _).
  - split; [done|]. by intros (? & ? & [=] & _).
  - destruct result as [| | | | |items|fields]; simpl;
      try (split; [done|]; by intros (? & ? & [=] & _)).
    destruct (dict_get "status" fields) as [status|] eqn:Hst; simpl.
    + destruct (is_str status "success") eqn:Hs; simpl.
      * apply is_str_true in Hs as ->.
        destruct (dict_get "data" fields) as [x|] eqn:Hd; simpl.
        -- split.
           ++ intros [= <- <-]. by exists fields, w.
           ++ intros (f & w' & [= <- <-] & _ & Hd' & ->).
              rewrite Hd in Hd'. by injection Hd' as ->.
        -- split; [done|].
           intros (f & w' & [= <- <-] & _ & Hd' & _). by rewrite Hd in Hd'.
      * split; [done|].
        intros (f & w' & [= <- <-] & Hst' & _). rewrite Hst in Hst'.
        injection Hst' as ->. vm_compute in Hs. discriminate Hs.
    + split; [done|].
      intros (f & w' & [= <- <-] & Hst' & _). by rewrite Hst in Hst'.
Qed.

(** ** The tools *)

(** X11.  [list_tenants] sends nothing; it reports one summary per tenant,
    in registry order and with the four keys [name], [url], [has_auth] and
    [org_id], the default tenant, and the number of tenants. *)
Theorem list_tenants_summary (s : State) :
  ∃ infos,
    list_tenants s
    = (inr (VDict [("tenants", VList infos);
                   ("default_tenant", opt_value (default_tenant config));
                   ("total_count",
                    VInt (Z.of_nat (length (tenants config))))]), s) ∧
    length infos = length (tenants config) ∧
    map (field "name") infos
      = map (λ n, Some (VStr n)) (list_tenant_names config) ∧
    Forall (λ v, keys v = ["name"; "url"; "has_auth"; "org_id"]) infos.
Proof.
  eexists. split; [reflexivity|]. unfold list_tenant_names.
  induction (tenants config) as [|t ts (IH1 & IH2 & IH3)]; [done|].
  simpl. split; [by rewrite IH1|]. split; [by rewrite IH2|].
  by constructor.
Qed.

(** X12.  The summary of a tenant does not depend on its password at all,
    and on its user name and token only through the [has_auth] boolean:
    replacing the three by others with the same boolean leaves the summary
    as it was. *)
Theorem tenant_info_ignores_credentials (t : PrometheusTenant)
    (user pass tok : option string) :
  truthy user || truthy tok = truthy (username t) || truthy (token t) →
  tenant_info {| name := name t; url := url t; username := user;
                 password := pass; token := tok; org_id := org_id t |}
  = tenant_info t.
Proof. intros H. rewrite !tenant_info_has_auth. simpl. by rewrite H. Qed.


(** X14.  [list_metrics]: a payload that is a list is returned with its
    length as [count]; a payload that is [null] makes [len] raise a
    [TypeError], after the request was sent. *)
Theorem list_metrics_count (tenant : option string) (n : string)
    (t : PrometheusTenant) (s : State) (fields : list (string * Value))
    (data : Value) (w : World) :
  py_or tenant (default_tenant config) = Some n →
  find_tenant (tenants config) n = Some t →
  http_get (build_request "label/__name__/values" None t) (world s)
    = (Body (VDict fields), w) →
  dict_get "status" fields = Some (VStr "success") →
  dict_get "data" fields = Some data →
  (∀ items, data = VList items →
     list_metrics tenant s
     = (inr (VDict [("metrics", VList items); ("tenant", VStr n);
                    ("count", VInt (Z.of_nat (length items)))]),
        {| world := w;
           issued := issued s
                     ++ [build_request "label/__name__/values" None t] |})) ∧
  (data = VNone →
     ∃ msg, list_metrics tenant s
            = (inl (TypeError msg),
               {| world := w;
                  issued := issued s
                            ++ [build_request "label/__name__/values"
                                  None t] |})).
Proof.
  intros Hn Hfind Hget Hst Hd. unfold list_metrics. rewrite Hn.
  pose proof (proj2 (request_succeeds_iff "label/__name__/values" None
                       n t s _ data Hfind)
                (ex_intro _ fields (ex_intro _ w
                   (conj Hget (conj Hst (conj Hd eq_refl)))))) as Hrun.
  split.
  - intros items Hitems. subst data. unfold bind at 1. by rewrite Hrun.
  - intros Hnone. subst data. exists (type_error_text "len" VNone).
    unfold bind at 1. by rewrite Hrun.
Qed.

(** X15.  [get_targets], on a payload with the lists [activeTargets] and
    [droppedTargets], returns both with their lengths. *)
Theorem get_targets_counts (tenant : option string) (n : string)
    (t : PrometheusTenant) (s : State)
    (fields data_fields : list (string * Value))
    (active dropped : list Value) (w : World) :
  py_or tenant (default_tenant config) = Some n →
  find_tenant (tenants config) n = Some t →
  http_get (build_request "targets" None t) (world s)
    = (Body (VDict fields), w) →
  dict_get "status" fields = Some (VStr "success") →
  dict_get "data" fields = Some (VDict data_fields) →
  dict_get "activeTargets" data_fields = Some (VList active) →
  dict_get "droppedTargets" data_fields = Some (VList dropped) →
  get_targets tenant s
  = (inr (VDict [("activeTargets", VList active);
                 ("droppedTargets", VList dropped);
                 ("tenant", VStr n);
                 ("active_count", VInt (Z.of_nat (length active)));
                 ("dropped_count", VInt (Z.of_nat (length dropped)))]),
     {| world := w;
        issued := issued s ++ [build_request "targets" None t] |}).
Proof.
  intros Hn Hfind Hget Hst Hd Ha Hdr. unfold get_targets. rewrite Hn.
  unfold bind at 1.
  rewrite (proj2 (request_succeeds_iff _ _ n t s _ (VDict data_fields) Hfind))
    by (by exists fields, w).
  run. by rewrite Ha, Hdr.
Qed.

(** X16.  The start-up summary of [main.py] against the credentials that
    are really sent: it says ["none"] exactly when no credentials are
    sent, and ["basic_auth"] whenever basic credentials are sent; but for
    a tenant with a token, a user name and a password it says
    ["basic_auth"] while the request carries the bearer token. *)
Theorem auth_summary_vs_request (t : PrometheusTenant) :
  (auth_method t = "none" ↔ get_prometheus_auth t = NoAuth) ∧
  (auth_method t = "bearer_token" →
   ∃ h, get_prometheus_auth t = AuthHeaders h) ∧
  ((∃ user pass, get_prometheus_auth t = HTTPBasicAuth user pass) →
   auth_method t = "basic_auth") ∧
  (truthy (token t) = true → truthy (username t) = true →
   truthy (password t) = true →
   auth_method t = "basic_auth" ∧
   ∃ h, get_prometheus_auth t = AuthHeaders h).
Proof.
  unfold auth_method, get_prometheus_auth.
  destruct (truthy (token t)), (truthy (username t)), (truthy (password t));
    simpl; repeat split; try done; try (intros _; by eexists);
    try (by intros (? & ? & ?)); by eexists.
Qed.

(** X17.  For a constructed configuration the check of [main.py] for an
    empty tenant list never fires: [setup_environment] returns true,
    [run_server] starts the server instead of exiting, and the summary
    has one entry per tenant. *)
Theorem run_server_starts (ts : list PrometheusTenant) (d : option string)
    (mcp : MCPServerConfig) (cfg : PrometheusConfig) :
  PrometheusConfig_init ts d mcp = inr cfg →
  setup_environment cfg = true ∧
  run_server cfg = Run "stdio" ∧
  length (tenant_summary cfg) = length ts.
Proof.
  intros (first & rest & -> & Hts & _)%init_inr.
  unfold run_server, setup_environment, tenant_summary. rewrite Hts.
  by rewrite length_map.
Qed.

(** ** The fan-out, whatever the names are *)

Lemma fan_out_loop_keeps_results (params : list (string * string))
    (ts : list PrometheusTenant) (n : string) :
  ∀ acc s acc' s',
    fan_out_loop params acc ts s = (inr acc', s') →
    is_Some (acc.1 !! n) → is_Some (acc'.1 !! n).
Proof.
  induction ts as [|t ts IH]; intros acc s acc' s' H Hn.
  - by injection H as -> ->.
  - rewrite fan_out_loop_cons in H.
    destruct (query_tenant params t s) as [[e|entry] s1];
      apply (IH _ _ _ _ H); simpl; [done|].
    apply lookup_insert_is_Some. destruct (decide (name t = n)); eauto.
Qed.

Lemma fan_out_loop_covers (params : list (string * string))
    (ts : list PrometheusTenant) (n : string) :
  ∀ acc s acc' s',
    fan_out_loop params acc ts s = (inr acc', s') →
    n ∈ map name ts →
    is_Some (acc'.1 !! n) ∨ is_Some (acc'.2 !! n).
Proof.
  induction ts as [|t ts IH]; intros acc s acc' s' H Hn.
  - by apply elem_of_nil in Hn.
  - simpl in Hn. rewrite fan_out_loop_cons in H.
    apply elem_of_cons in Hn as [->|Hn].
    + destruct (query_tenant params t s) as [[e|entry] s1].
      * right. apply (fan_out_loop_keeps_errors _ _ _ _ _ _ _ H). simpl.
        rewrite lookup_insert_eq. by eexists.
      * left. apply (fan_out_loop_keeps_results _ _ _ _ _ _ _ H). simpl.
        rewrite lookup_insert_eq. by eexists.
    + destruct (query_tenant params t s) as [[e|entry] s1];
        by apply (IH _ _ _ _ H).
Qed.

Lemma size_insert_le (m : gmap string Value) (k : string) (v : Value) :
  size (<[k := v]> m) ≤ S (size m).
Proof. rewrite map_size_insert. destruct (m !! k); simpl; lia. Qed.

Lemma fan_out_loop_size_bound (params : list (string * string))
    (ts : list PrometheusTenant) :
  ∀ acc s acc' s',
    fan_out_loop params acc ts s = (inr acc', s') →
    size acc'.1 ≤ size acc.1 + length ts ∧
    size acc'.2 ≤ size acc.2 + length ts.
Proof.
  induction ts as [|t ts IH]; intros acc s acc' s' H.
  - injection H as -> ->. simpl. lia.
  - rewrite fan_out_loop_cons in H.
    destruct (query_tenant params t s) as [[e|entry] s1];
      destruct (IH _ _ _ _ H) as [H1 H2]; simpl in *.
    + pose proof (size_insert_le acc.2 (name t) (error_entry e)). lia.
    + pose proof (size_insert_le acc.1 (name t) entry). lia.
Qed.

(** X18.  Any fan-out, also over a registry with repeated names, returns
    normally; every registered name is a key of [results] or of [errors],
    no other name is a key; neither count exceeds the number of tenants;
    and one request per tenant was sent, in registry order, each built for
    the record that the tenant's name resolves to. *)
Theorem fan_out_covers_registry (query : string) (time : option string)
    (s : State) :
  ∃ r s',
    execute_query_all_tenants query time s = (inr r, s') ∧
    (∀ n, n ∈ list_tenant_names config →
          is_Some (results r !! n) ∨ is_Some (errors r !! n)) ∧
    (∀ n, n ∉ list_tenant_names config →
          results r !! n = None ∧ errors r !! n = None) ∧
    successful_tenants r ≤ total_tenants r ∧
    failed_tenants r ≤ total_tenants r ∧
    ∃ reqs,
      issued s' = issued s ++ reqs ∧
      Forall2 (λ t req, request_for (query_params query time) t = Some req)
        (tenants config) reqs.
Proof.
  destruct (execute_query_all_tenants_run query time s)
    as (acc & s' & Hloop & Hrun).
  eexists _, s'. split; [exact Hrun|]. simpl.
  destruct (fan_out_loop_size_bound _ _ _ _ _ _ Hloop) as [H1 H2].
  simpl in H1, H2. rewrite map_size_empty in H1, H2.
  repeat split; try lia.
  - intros n Hn. by apply (fan_out_loop_covers _ _ _ _ _ _ _ Hloop).
  - by destruct (fan_out_loop_frame _ _ n _ _ _ _ Hloop H) as [-> _].
  - by destruct (fan_out_loop_frame _ _ n _ _ _ _ Hloop H) as [_ ->].
  - by apply (fan_out_loop_issued _ _ _ _ _ _ Hloop).
Qed.

(** X19.  What the fan-out does for one tenant is what the instant-query
    tool does for that tenant's name: both fail with the same exception, or
    both succeed with the same [resultType] and [result]; and they leave the
    same state. *)
Theorem fan_out_entry_matches_instant_query (query : string)
    (time : option string) (t : PrometheusTenant) (s : State) :
  name t ≠ "" →
  match execute_query query time (Some (name t)) s,
        query_tenant (query_params query time) t s with
  | (inr v, s1), (inr entry, s2) =>
      s1 = s2 ∧
      is_Some (field "resultType" v) ∧
      field "resultType" v = field "resultType" entry ∧
      field "result" v = field "result" entry ∧
      field "tenant" v = Some (VStr (name t)) ∧
      field "success" entry = Some (VBool true)
  | (inl e1, s1), (inl e2, s2) => e1 = e2 ∧ s1 = s2
  | _, _ => False
  end.
Proof.
  intros Hne. unfold execute_query, query_tenant, py_or.
  rewrite (truthy_nonempty _ Hne). unfold bind, lift, ret.
  destruct (make_prometheus_request _ _ _ s) as [[e|data] s1]; [done|].
  destruct (py_getitem data "resultType") as [e|rt]; [done|].
  destruct (py_getitem data "result") as [e|r]; [done|].
  simpl. by repeat split.
Qed.

(** ** One request per call *)

Lemma make_request_issued (endpoint : string)
    (params : option (list (string * string)))
    (tenant_name : option string) (s : State) :
  issued (make_prometheus_request endpoint params tenant_name s).2
  = issued s ++ match resolve_tenant tenant_name with
                | inr t => [build_request endpoint params t]
                | inl _ => []
                end.
Proof.
  unfold make_prometheus_request. unfold bind, lift.
  destruct (resolve_tenant tenant_name) as [e|t]; simpl.
  - by rewrite app_nil_r.
  - apply send_request_issued.
Qed.

(** X20.  No tool sends more than one request for a call, and none retries:
    each of the five single-tenant tools sends exactly the request built
    for the tenant it resolved, also when it then fails, and sends nothing
    when the tenant is unknown; [list_tenants] sends nothing. *)
Theorem one_request_per_call (tenant : option string) (s : State) :
  let sent endpoint params :=
    issued s ++ match resolve_tenant (py_or tenant (default_tenant config)) with
                | inr t => [build_request endpoint params t]
                | inl _ => []
                end in
  (∀ query time,
     issued (execute_query query time tenant s).2
     = sent "query" (Some (query_params query time))) ∧
  (∀ query start end_ step,
     issued (execute_range_query query start end_ step tenant s).2
     = sent "query_range"
         (Some [("query", query); ("start", start);
                ("end", end_); ("step", step)])) ∧
  issued (list_metrics tenant s).2 = sent "label/__name__/values" None ∧
  (∀ metric,
     issued (get_metric_metadata metric tenant s).2
     = sent "metadata" (Some [("metric", metric)])) ∧
  issued (get_targets tenant s).2 = sent "targets" None ∧
  issued (list_tenants s).2 = issued s.
Proof.
  intros sent. subst sent. cbv beta.
  repeat split; intros;
    rewrite <- ?make_request_issued;
    unfold execute_query, execute_range_query, list_metrics,
      get_metric_metadata, get_targets, list_tenants;
    try reflexivity;
    unfold bind at 1;
    destruct (make_prometheus_request _ _ _ s) as [[e|data] s1];
    simpl; try reflexivity; run;
    repeat match goal with
           | |- context [py_getitem ?d ?k] =>
               destruct (py_getitem d k); simpl; try reflexivity
           | |- context [py_len ?d] =>
               destruct (py_len d); simpl; try reflexivity
           end.
Qed.

End Server.

(** C6.  A registry built from a non-empty tenant sequence, with a default
    that is absent (unset or empty) or names one of the records, is
    constructed; its default tenant is the configured one, or the name of
    the first record when none was configured; a request without a tenant
    name resolves to the default tenant's record, and a request for a
    registered name resolves to the record of that name (the first one
    bearing it, which is the record itself when names are distinct). *)
Theorem registry_resolves (repr_str : string → string)
    (ts : list PrometheusTenant) (d : option string) (mcp : MCPServerConfig) :
  ts ≠ [] →
  truthy d = false ∨ fmt_opt d ∈ map name ts →
  ∃ cfg dn,
    PrometheusConfig_init ts d mcp = inr cfg ∧
    tenants cfg = ts ∧
    default_tenant cfg = Some dn ∧
    (truthy d = true → d = Some dn) ∧
    (truthy d = false → ∃ first rest, ts = first :: rest ∧ dn = name first) ∧
    (∃ t, resolve_tenant repr_str cfg None = inr t ∧ first_named ts dn t) ∧
    (∀ n, n ∈ map name ts →
       ∃ t, resolve_tenant repr_str cfg (Some n) = inr t ∧
            first_named ts n t) ∧
    (NoDup (map name ts) →
     ∀ t, t ∈ ts → resolve_tenant repr_str cfg (Some (name t)) = inr t).
Proof.
  intros Hne Hd. destruct ts as [|first rest]; [done|].
  set (ts := first :: rest) in *.
  set (dn := if truthy d then fmt_opt d else name first).
  set (cfg := {| tenants := ts; default_tenant := Some dn;
                 mcp_server_config := mcp |}).
  assert (PrometheusConfig_init ts d mcp = inr cfg) as Hinit.
  { subst dn cfg. destruct (truthy d) eqn:Ht.
    - destruct Hd as [?|Hin]; [done|].
      apply truthy_Some in Ht as (n & -> & Hn). simpl in Hin.
      rewrite (init_named _ _ _ Hn). subst ts.
      by rewrite bool_decide_true.
    - by apply init_unset. }
  assert (dn ∈ map name ts) as Hdn.
  { subst dn. destruct (truthy d); [by destruct Hd|]. by left. }
  assert (∀ n, n ∈ map name ts →
            ∃ t, resolve_tenant repr_str cfg (Some n) = inr t ∧
                 first_named ts n t) as Hres.
  { intros n Hn. by apply (resolve_tenant_registered repr_str cfg). }
  exists cfg, dn. split; [done|]. split; [done|]. split; [done|].
  split; [|split; [|split; [|split]]].
  - intros Ht. subst dn. rewrite Ht.
    by apply truthy_Some in Ht as (n & -> & _).
  - intros Ht. exists first, rest. subst dn. by rewrite Ht.
  - rewrite (resolve_tenant_default repr_str cfg dn) by done. by apply Hres.
  - done.
  - intros Hnd t Ht. apply resolve_tenant_found. by apply find_tenant_unique.
Qed.

(** * The claims at sample inputs *)

Ltac by_computation :=
  match goal with
  | |- ?P => apply (bool_decide_unpack P); vm_compute; exact I
  end.

(** [fan_out_counts] at a registry of two tenants with distinct names, of
    which the first is answered with an error envelope. *)
Lemma fan_out_counts_sample :
  NoDup (list_tenant_names
           (Sample.config_of [Sample.prod; Sample.staging] (Some "prod"))) ∧
  ∃ r s',
    execute_query_all_tenants
      (Sample.failing_for "http://prod:9090/api/v1/query")
      Sample.quote Sample.opaque_text Sample.opaque_type_error
      (Sample.config_of [Sample.prod; Sample.staging] (Some "prod"))
      "up" None (initial_state tt) = (inr r, s') ∧
    successful_tenants r + failed_tenants r = total_tenants r ∧
    total_tenants r = 2.
Proof.
  assert (NoDup (list_tenant_names
            (Sample.config_of [Sample.prod; Sample.staging] (Some "prod"))))
    as Hnd by by_computation.
  split; [exact Hnd|].
  destruct (fan_out_counts
              (Sample.failing_for "http://prod:9090/api/v1/query")
              Sample.quote Sample.opaque_text Sample.opaque_type_error
              (Sample.config_of [Sample.prod; Sample.staging] (Some "prod"))
              "up" None (initial_state tt) Hnd)
    as (r & s' & Hrun & _ & _ & Hsum & Htotal & _).
  exists r, s'. split; [exact Hrun|]. split; [exact Hsum|exact Htotal].
Defined.

(** C1 as stated fails: a registry may hold two records of one name (its
    construction succeeds), and the fan-out then stores both outcomes under
    one key.  With a backend that answers every request successfully, two
    tenants give one success and no failure. *)
Lemma fan_out_counts_repeated_name :
  PrometheusConfig_init [Sample.prod; Sample.prod_twin] None Sample.mcp
    = inr (Sample.config_of [Sample.prod; Sample.prod_twin] (Some "prod")) ∧
  ∃ r s',
    execute_query_all_tenants
      (Sample.constant_backend Sample.success_envelope)
      Sample.quote Sample.opaque_text Sample.opaque_type_error
      (Sample.config_of [Sample.prod; Sample.prod_twin] (Some "prod"))
      "up" None (initial_state tt) = (inr r, s') ∧
    total_tenants r = 2 ∧
    successful_tenants r = 1 ∧
    failed_tenants r = 0 ∧
    successful_tenants r + failed_tenants r ≠ total_tenants r.
Proof.
  split; [reflexivity|].
  destruct (execute_query_all_tenants_run
              (Sample.constant_backend Sample.success_envelope)
              Sample.quote Sample.opaque_text Sample.opaque_type_error
              (Sample.config_of [Sample.prod; Sample.prod_twin] (Some "prod"))
              "up" None (initial_state tt))
    as (acc & s' & Hloop & Hrun).
  eexists _, s'. split; [exact Hrun|].
  cbn [tenants Sample.config_of] in Hloop.
  rewrite fan_out_loop_cons in Hloop.
  destruct (query_tenant _ _ _ _ _ _ Sample.prod _) as [[e|entry] s1] eqn:Hq1;
    [vm_compute in Hq1; discriminate Hq1|].
  rewrite fan_out_loop_cons in Hloop.
  destruct (query_tenant _ _ _ _ _ _ Sample.prod_twin _)
    as [[e|entry'] s2] eqn:Hq2; [vm_compute in Hq2; discriminate Hq2|].
  change (name Sample.prod_twin) with "prod" in Hloop.
  change (name Sample.prod) with "prod" in Hloop.
  cbn [fan_out_loop fst snd] in Hloop. unfold ret in Hloop.
  injection Hloop as <- _.
  cbn [total_tenants successful_tenants failed_tenants tenants fst snd
       Sample.config_of length].
  rewrite insert_insert_eq, map_size_insert_None by apply lookup_empty.
  rewrite !map_size_empty. repeat split; lia.
Qed.

(** [fan_out_isolates_failures] at a registry of two tenants: the request
    for the first is answered with an error envelope, the second is still
    queried and the error of the first is in [errors]. *)
Lemma fan_out_isolates_failures_sample :
  ∃ r s',
    execute_query_all_tenants
      (Sample.failing_for "http://prod:9090/api/v1/query")
      Sample.quote Sample.opaque_text Sample.opaque_type_error
      (Sample.config_of [Sample.prod; Sample.staging] (Some "prod"))
      "up" None (initial_state tt) = (inr r, s') ∧
    fan_out_loop
      (Sample.failing_for "http://prod:9090/api/v1/query")
      Sample.quote Sample.opaque_text Sample.opaque_type_error
      (Sample.config_of [Sample.prod; Sample.staging] (Some "prod"))
      (query_params "up" None)
      (∅, {[ "prod" :=
               VDict [("error",
                       VStr "Prometheus API error for tenant 'prod': bad query");
                      ("success", VBool false)] ]})
      [Sample.staging]
      {| world := tt;
         issued := [build_request "query" (Some [("query", "up")])
                      Sample.prod] |}
      = (inr (results r, errors r), s') ∧
    errors r !! "prod"
      = Some (VDict [("error",
                      VStr "Prometheus API error for tenant 'prod': bad query");
                     ("success", VBool false)]).
Proof.
  destruct (fan_out_isolates_failures
              (Sample.failing_for "http://prod:9090/api/v1/query")
              Sample.quote Sample.opaque_text Sample.opaque_type_error
              (Sample.config_of [Sample.prod; Sample.staging] (Some "prod"))
              "up" None (initial_state tt)
              [] [Sample.staging] Sample.prod (∅, ∅) (initial_state tt)
              {| world := tt;
                 issued := [build_request "query" (Some [("query", "up")])
                              Sample.prod] |}
              (ValueError "Prometheus API error for tenant 'prod': bad query")
              eq_refl eq_refl eq_refl)
    as (r & s' & Hrun & Hloop & _ & _ & Hrec).
  exists r, s'. split; [exact Hrun|]. split; [exact Hloop|].
  apply Hrec. by_computation.
Defined.

(** [auth_precedence] at a tenant with a token, a user name and a
    password. *)
Lemma auth_precedence_sample :
  get_prometheus_auth Sample.both
    = AuthHeaders [("Authorization", "Bearer tok")] ∧
  req_auth (build_request "query" None Sample.both) = NoAuth.
Proof.
  destruct (proj1 (auth_precedence Sample.both) "tok" eq_refl)
    as [Hauth Hreq]; [discriminate|].
  split; [exact Hauth|]. exact (proj1 (Hreq "query" None)).
Defined.

(** [unknown_tenant_is_reported] at a name that the registry lacks. *)
Lemma unknown_tenant_is_reported_sample :
  make_prometheus_request
    (Sample.constant_backend Sample.success_envelope)
    Sample.quote Sample.opaque_text Sample.opaque_type_error
    (Sample.config_of [Sample.prod; Sample.staging] (Some "prod"))
    "query" None (Some "nope") (initial_state tt)
  = (inl (ValueError
            "Tenant 'nope' not found. Available tenants: ['prod', 'staging']"),
     initial_state tt).
Proof.
  destruct (unknown_tenant_is_reported
              (Sample.constant_backend Sample.success_envelope)
              Sample.quote Sample.opaque_text Sample.opaque_type_error
              (Sample.config_of [Sample.prod; Sample.staging] (Some "prod"))
              "query" None "nope" (initial_state tt))
    as (msg & Hrun & Hmsg & _); [by_computation|].
  rewrite Hrun, Hmsg. reflexivity.
Defined.

(** [registry_resolves] at two tenants and no configured default. *)
Lemma registry_resolves_sample :
  ∃ cfg,
    PrometheusConfig_init [Sample.prod; Sample.staging] None Sample.mcp
      = inr cfg ∧
    default_tenant cfg = Some "prod" ∧
    resolve_tenant Sample.quote cfg None = inr Sample.prod ∧
    resolve_tenant Sample.quote cfg (Some "staging") = inr Sample.staging.
Proof.
  destruct (registry_resolves Sample.quote [Sample.prod; Sample.staging]
              None Sample.mcp)
    as (cfg & dn & Hinit & _ & Hd & _ & _ & _ & _ & _);
    [discriminate | by left |].
  exists cfg. split; [exact Hinit|].
  injection Hinit as <-. by repeat split.
Defined.

(** [backend_error_is_raised] at the envelope
    [{"status": "error", "error": "bad query"}] and the tenant
    ["default"]. *)
Lemma backend_error_is_raised_sample :
  ∃ s',
    execute_query
      (Sample.constant_backend Sample.error_envelope)
      Sample.quote Sample.opaque_text Sample.opaque_type_error
      (Sample.config_of [Sample.default] (Some "default"))
      "up" None None (initial_state tt)
    = (inl (ValueError "Prometheus API error for tenant 'default': bad query"),
       s').
Proof.
  destruct (backend_error_is_raised
              (Sample.constant_backend Sample.error_envelope)
              Sample.quote Sample.opaque_text Sample.opaque_type_error
              (Sample.config_of [Sample.default] (Some "default"))
              "query" (Some (query_params "up" None)) "default"
              Sample.default (initial_state tt)
              [("status", VStr "error"); ("error", VStr "bad query")]
              (VStr "error") tt eq_refl eq_refl eq_refl eq_refl)
    as (msg & s' & _ & Hmsg & _ & _ & _ & Hquery).
  exists s'. rewrite (Hquery "up" None None eq_refl eq_refl eq_refl), Hmsg.
  reflexivity.
Defined.

(** [registry_names_as_given] at a sequence that repeats a name. *)
Lemma registry_names_as_given_sample :
  list_tenant_names
    (Sample.config_of [Sample.prod; Sample.prod_twin] (Some "prod"))
  = ["prod"; "prod"].
Proof.
  exact (proj1 (registry_names_as_given [Sample.prod; Sample.prod_twin] None
                  Sample.mcp _ eq_refl)).
Defined.

(** C8 as stated fails: construction from two records of one name
    succeeds, and the registry holds that name twice. *)
Lemma registry_with_repeated_name :
  PrometheusConfig_init [Sample.prod; Sample.prod_twin] None Sample.mcp
    = inr (Sample.config_of [Sample.prod; Sample.prod_twin] (Some "prod")) ∧
  ¬ NoDup (list_tenant_names
             (Sample.config_of [Sample.prod; Sample.prod_twin] (Some "prod"))).
Proof.
  split; [reflexivity|]. intros Hnd. simpl in Hnd.
  apply NoDup_cons in Hnd as [Hnot _]. apply Hnot. by left.
Qed.



(** C2 as stated fails: in a registry with two records of one name, both
    calls are answered with an error; the first tenant fails with the
    error ["first"], but what [errors] holds in the end is the error of the
    second. *)
Lemma fan_out_overwrites_error :
  PrometheusConfig_init [Sample.prod; Sample.prod_twin] None Sample.mcp
    = inr (Sample.config_of [Sample.prod; Sample.prod_twin] (Some "prod")) ∧
  query_tenant Sample.failing_in_turn
    Sample.quote Sample.opaque_text Sample.opaque_type_error
    (Sample.config_of [Sample.prod; Sample.prod_twin] (Some "prod"))
    (query_params "up" None) Sample.prod (initial_state 0)
  = (inl (ValueError "Prometheus API error for tenant 'prod': first"),
     {| world := 1;
        issued := [build_request "query" (Some [("query", "up")])
                     Sample.prod] |}) ∧
  ∃ r s',
    execute_query_all_tenants Sample.failing_in_turn
      Sample.quote Sample.opaque_text Sample.opaque_type_error
      (Sample.config_of [Sample.prod; Sample.prod_twin] (Some "prod"))
      "up" None (initial_state 0) = (inr r, s') ∧
    errors r !! "prod"
      = Some (VDict [("error",
                      VStr "Prometheus API error for tenant 'prod': second");
                     ("success", VBool false)]) ∧
    errors r !! "prod"
      ≠ Some (VDict [("error",
                      VStr "Prometheus API error for tenant 'prod': first");
                     ("success", VBool false)]).
Proof.
  split; [reflexivity|]. split; [reflexivity|].
  destruct (execute_query_all_tenants_run Sample.failing_in_turn
              Sample.quote Sample.opaque_text Sample.opaque_type_error
              (Sample.config_of [Sample.prod; Sample.prod_twin] (Some "prod"))
              "up" None (initial_state 0))
    as (acc & s' & Hloop & Hrun).
  eexists _, s'. split; [exact Hrun|].
  cbn [tenants Sample.config_of] in Hloop.
  rewrite fan_out_loop_cons in Hloop.
  destruct (query_tenant _ _ _ _ _ _ Sample.prod _) as [[e1|entry] s1] eqn:Hq1;
    [|vm_compute in Hq1; discriminate Hq1].
  vm_compute in Hq1. injection Hq1 as <- <-.
  rewrite fan_out_loop_cons in Hloop.
  destruct (query_tenant _ _ _ _ _ _ Sample.prod_twin _)
    as [[e2|entry] s2] eqn:Hq2; [|vm_compute in Hq2; discriminate Hq2].
  vm_compute in Hq2. injection Hq2 as <- <-.
  change (name Sample.prod_twin) with "prod" in Hloop.
  change (name Sample.prod) with "prod" in Hloop.
  cbn [fan_out_loop fst snd] in Hloop. unfold ret in Hloop.
  injection Hloop as <- _.
  cbn [errors snd]. rewrite lookup_insert_eq.
  split; [reflexivity|]. intros Heq. discriminate Heq.
Qed.

(** [empty_tenant_means_default] at two tenants and no configured default:
    [list_metrics] with the tenant [""] sends the request of the first
    tenant. *)
Lemma empty_tenant_means_default_sample :
  issued (list_metrics
            (Sample.constant_backend Sample.metrics_envelope)
            Sample.quote Sample.opaque_text Sample.opaque_type_error
            (Sample.config_of [Sample.prod; Sample.staging] (Some "prod"))
            (Some "") (initial_state tt)).2
  = [build_request "label/__name__/values" None Sample.prod].
Proof.
  destruct (empty_tenant_means_default
              (Sample.constant_backend Sample.metrics_envelope)
              Sample.quote Sample.opaque_text Sample.opaque_type_error
              (Sample.config_of [Sample.prod; Sample.staging] (Some "prod"))
              [Sample.prod; Sample.staging] None Sample.mcp eq_refl)
    as (dn & t & _ & _ & Hres & _ & _ & [_ Hreach] & _).
  injection Hres as <-. exact (Hreach (initial_state tt)).
Defined.

(** * Further properties at sample inputs *)

(** [request_url_ignores_trailing_slashes] at a tenant URL with one
    trailing slash. *)
Lemma request_url_ignores_trailing_slashes_sample :
  req_url (build_request "query" None Sample.prod)
  = "http://prod:9090/api/v1/query".
Proof.
  apply (request_url_ignores_trailing_slashes "query" None Sample.prod
           "http://prod:9090" 1 eq_refl).
  intros [s' Hs']. apply (f_equal String.rev) in Hs'.
  rewrite rev_app_distr in Hs'. vm_compute in Hs'. discriminate Hs'.
Defined.

(** [transport_failure_propagates] at a backend that cannot be reached. *)
Lemma transport_failure_propagates_sample :
  make_prometheus_request Sample.unreachable
    Sample.quote Sample.opaque_text Sample.opaque_type_error
    (Sample.config_of [Sample.default] (Some "default"))
    "targets" None (Some "default") (initial_state tt)
  = (inl (RequestException "Connection refused"),
     {| world := tt;
        issued := [build_request "targets" None Sample.default] |}).
Proof.
  exact (transport_failure_propagates Sample.unreachable
           Sample.quote Sample.opaque_text Sample.opaque_type_error
           (Sample.config_of [Sample.default] (Some "default"))
           "targets" None "default" Sample.default (initial_state tt)
           "Connection refused" tt eq_refl eq_refl).
Defined.

(** [request_succeeds_iff] at a success envelope. *)
Lemma request_succeeds_iff_sample :
  make_prometheus_request (Sample.constant_backend Sample.success_envelope)
    Sample.quote Sample.opaque_text Sample.opaque_type_error
    (Sample.config_of [Sample.default] (Some "default"))
    "query" None (Some "default") (initial_state tt)
  = (inr Sample.vector,
     {| world := tt;
        issued := [build_request "query" None Sample.default] |}).
Proof.
  apply (request_succeeds_iff (Sample.constant_backend Sample.success_envelope)
           Sample.quote Sample.opaque_text Sample.opaque_type_error
           (Sample.config_of [Sample.default] (Some "default"))
           "query" None "default" Sample.default (initial_state tt)
           _ Sample.vector eq_refl).
  eexists _, tt. repeat split; reflexivity.
Defined.

(** [tenant_info_ignores_credentials] at another password and another
    user name. *)
Lemma tenant_info_ignores_credentials_sample :
  tenant_info (Sample.tenant "staging" "http://staging:9090"
                 (Some "bob") (Some "hunter2") None)
  = tenant_info Sample.staging.
Proof.
  exact (tenant_info_ignores_credentials Sample.staging
           (Some "bob") (Some "hunter2") None eq_refl).
Defined.


(** [list_metrics_count] at a payload of two metric names. *)
Lemma list_metrics_count_sample :
  list_metrics (Sample.constant_backend Sample.metrics_envelope)
    Sample.quote Sample.opaque_text Sample.opaque_type_error
    (Sample.config_of [Sample.default] (Some "default"))
    None (initial_state tt)
  = (inr (VDict [("metrics", VList [VStr "up"; VStr "go_goroutines"]);
                 ("tenant", VStr "default"); ("count", VInt 2)]),
     {| world := tt;
        issued := [build_request "label/__name__/values" None
                     Sample.default] |}).
Proof.
  exact (proj1 (list_metrics_count
                  (Sample.constant_backend Sample.metrics_envelope)
                  Sample.quote Sample.opaque_text Sample.opaque_type_error
                  (Sample.config_of [Sample.default] (Some "default"))
                  None "default" Sample.default (initial_state tt)
                  [("status", VStr "success");
                   ("data", VList [VStr "up"; VStr "go_goroutines"])]
                  (VList [VStr "up"; VStr "go_goroutines"]) tt
                  eq_refl eq_refl eq_refl eq_refl eq_refl)
           [VStr "up"; VStr "go_goroutines"] eq_refl).
Defined.

(** [get_targets_counts] at one active target and no dropped one. *)
Lemma get_targets_counts_sample :
  get_targets (Sample.constant_backend Sample.targets_envelope)
    Sample.quote Sample.opaque_text Sample.opaque_type_error
    (Sample.config_of [Sample.default] (Some "default"))
    None (initial_state tt)
  = (inr (VDict [("activeTargets", VList [VDict [("health", VStr "up")]]);
                 ("droppedTargets", VList []);
                 ("tenant", VStr "default");
                 ("active_count", VInt 1);
                 ("dropped_count", VInt 0)]),
     {| world := tt;
        issued := [build_request "targets" None Sample.default] |}).
Proof.
  exact (get_targets_counts
           (Sample.constant_backend Sample.targets_envelope)
           Sample.quote Sample.opaque_text Sample.opaque_type_error
           (Sample.config_of [Sample.default] (Some "default"))
           None "default" Sample.default (initial_state tt)
           [("status", VStr "success");
            ("data", VDict [("activeTargets",
                             VList [VDict [("health", VStr "up")]]);
                            ("droppedTargets", VList [])])]
           [("activeTargets", VList [VDict [("health", VStr "up")]]);
            ("droppedTargets", VList [])]
           [VDict [("health", VStr "up")]] [] tt
           eq_refl eq_refl eq_refl eq_refl eq_refl eq_refl eq_refl).
Defined.

(** [run_server_starts] at a configuration of two tenants. *)
Lemma run_server_starts_sample :
  run_server (Sample.config_of [Sample.prod; Sample.staging] (Some "prod"))
  = Run "stdio".
Proof.
  exact (proj1 (proj2 (run_server_starts [Sample.prod; Sample.staging] None
                         Sample.mcp _ eq_refl))).
Defined.

(** [fan_out_entry_matches_instant_query] at a tenant whose backend
    answers with a success envelope. *)
Lemma fan_out_entry_matches_instant_query_sample :
  match execute_query (Sample.constant_backend Sample.success_envelope)
          Sample.quote Sample.opaque_text Sample.opaque_type_error
          (Sample.config_of [Sample.prod; Sample.staging] (Some "prod"))
          "up" None (Some "staging") (initial_state tt),
        query_tenant (Sample.constant_backend Sample.success_envelope)
          Sample.quote Sample.opaque_text Sample.opaque_type_error
          (Sample.config_of [Sample.prod; Sample.staging] (Some "prod"))
          (query_params "up" None) Sample.staging (initial_state tt) with
  | (inr v, s1), (inr entry, s2) =>
      s1 = s2 ∧
      is_Some (field "resultType" v) ∧
      field "resultType" v = field "resultType" entry ∧
      field "result" v = field "result" entry ∧
      field "tenant" v = Some (VStr "staging") ∧
      field "success" entry = Some (VBool true)
  | (inl e1, s1), (inl e2, s2) => e1 = e2 ∧ s1 = s2
  | _, _ => False
  end.
Proof.
  apply (fan_out_entry_matches_instant_query
           (Sample.constant_backend Sample.success_envelope)
           Sample.quote Sample.opaque_text Sample.opaque_type_error
           (Sample.config_of [Sample.prod; Sample.staging] (Some "prod"))
           "up" None Sample.staging (initial_state tt)).
  discriminate.
Defined.
